(** * get_papers.py: a shallow embedding and its checked properties

    The script queries the PubMed E-utilities (esearch, esummary, efetch),
    keeps the papers one of whose affiliation strings carries an industry
    keyword and writes them to [filtered_papers.csv].

    Conventions of the embedding.
    - A Python [str] is a [string]; the characters are the code points
      below 256, on which [str.lower] and [str.strip] act as [PyStr.lower]
      and [PyStr.strip] do.  Case mappings of code points above 255 are not
      part of the model.
    - A decoded JSON document is a [json] value; the dynamically typed
      operations the script applies to it ([.get], [in], indexing,
      truthiness, iteration, [str.join]) raise what Python raises.
    - The network, the console and the file system are the [world] the
      script runs in; the program is written in the state-and-exception
      monad [M]. *)

From Stdlib Require Import Ascii NArith ZArith Bool.
From stdpp Require Import gmap strings list sorting.

(** ** Python strings *)

Module PyStr.

(** [str.lower] on one code point below 256: A-Z and the Latin-1 capitals
    (192-222 except the multiplication sign 215) move up by 32. *)
Definition lower_char (c : ascii) : ascii :=
  let n := N_of_ascii c in
  if ((65 <=? n) && (n <=? 90) || (192 <=? n) && (n <=? 222) && negb (n =? 215))%N
  then ascii_of_N (n + 32)
  else c.

(** [s.lower()] *)
Fixpoint lower (s : string) : string :=
  match s with
  | EmptyString => EmptyString
  | String c s' => String (lower_char c) (lower s')
  end.

(** [c.isspace()] for a code point below 256. *)
Definition is_space (c : ascii) : bool :=
  let n := N_of_ascii c in
  ((9 <=? n) && (n <=? 13) || (28 <=? n) && (n <=? 32) || (n =? 133) || (n =? 160))%N.

Fixpoint lstrip (s : string) : string :=
  match s with
  | EmptyString => EmptyString
  | String c s' => if is_space c then lstrip s' else s
  end.

Fixpoint rstrip (s : string) : string :=
  match s with
  | EmptyString => EmptyString
  | String c s' =>
      match rstrip s' with
      | EmptyString => if is_space c then EmptyString else String c EmptyString
      | t => String c t
      end
  end.

(** [s.strip()] *)
Definition strip (s : string) : string := rstrip (lstrip s).

(** [sub in s] for two strings: some suffix of [s] starts with [sub]. *)
Fixpoint contains (sub s : string) : bool :=
  String.prefix sub s ||
  match s with
  | EmptyString => false
  | String _ s' => contains sub s'
  end.

(** [sep.join(items)] for a list of strings. *)
Definition join (sep : string) (items : list string) : string :=
  String.concat sep items.

(** The one-character strings a [str] yields when it is iterated. *)
Fixpoint chars (s : string) : list string :=
  match s with
  | EmptyString => []
  | String c s' => String c EmptyString :: chars s'
  end.

End PyStr.

(** ** The classifier (get_papers.py, lines 105-108) *)

Definition keywords : list string :=
  ["pharma"; "biotech"; "laboratories"; "inc."; "corporation"; "company"; "llc"; "ltd"].

Definition is_non_academic_affiliation (affiliations : list string) : bool :=
  existsb
    (fun aff => existsb (fun keyword => PyStr.contains keyword (PyStr.lower aff)) keywords)
    affiliations.

(** The inner [any] of line 108, for one affiliation. *)
Definition mentions_keyword (aff : string) : bool :=
  existsb (fun keyword => PyStr.contains keyword (PyStr.lower aff)) keywords.



(** ** Decoded JSON and the dynamically typed operations applied to it *)

#[local] Set Warnings "-register-all".

(** What [response.json()] returns.  [JObj] lists the entries of a Python
    [dict] in insertion order; [JNull] is [None].  Of a number the script
    only ever observes whether it is zero, so a number that is not integral
    stands as any non-zero integer. *)
Inductive json : Type :=
| JNull
| JBool (b : bool)
| JNum (n : Z)
| JStr (s : string)
| JArr (items : list json)
| JObj (fields : list (string * json)).

Inductive exn : Type :=
| RequestException   (* requests.exceptions.RequestException and its subclasses *)
| AttributeError
| TypeError
| KeyError.

Module Py.

(** [d[key]] on the entries of a dict. *)
Fixpoint lookup (key : string) (fields : list (string * json)) : option json :=
  match fields with
  | [] => None
  | (k, v) :: rest => if String.eqb k key then Some v else lookup key rest
  end.

(** [bool(v)], the test of [if not v]. *)
Definition truthy (v : json) : bool :=
  match v with
  | JNull => false
  | JBool b => b
  | JNum n => negb (n =? 0)%Z
  | JStr s => negb (String.eqb s "")
  | JArr items => match items with [] => false | _ => true end
  | JObj fields => match fields with [] => false | _ => true end
  end.

(** [v.get(key, default)]: only a dict has the method. *)
Definition get (v : json) (key : string) (fallback : json) : exn + json :=
  match v with
  | JObj fields => inr (default fallback (lookup key fields))
  | _ => inl AttributeError
  end.

Definition as_str (v : json) : option string :=
  match v with JStr s => Some s | _ => None end.

(** The items [v] yields when iterated, when they are all [str]: the
    elements of a list, the characters of a string, the keys of a dict.
    [None] is the [TypeError] of [",".join(v)] on anything else. *)
Definition str_items (v : json) : option (list string) :=
  match v with
  | JArr items => mapM as_str items
  | JStr s => Some (PyStr.chars s)
  | JObj fields => Some (map fst fields)
  | _ => None
  end.

(** [len(v)] *)
Definition len (v : json) : option nat :=
  match v with
  | JArr items => Some (length items)
  | JStr s => Some (String.length s)
  | JObj fields => Some (length fields)
  | _ => None
  end.

Definition is_str (s : string) (v : json) : bool :=
  match v with JStr t => String.eqb s t | _ => false end.

(** [s in v] for a [str] on the left: a key of a dict, an element of a
    list, a substring of a string; [TypeError] otherwise. *)
Definition contains (s : string) (v : json) : exn + bool :=
  match v with
  | JObj fields => inr (bool_decide (is_Some (lookup s fields)))
  | JArr items => inr (existsb (is_str s) items)
  | JStr t => inr (PyStr.contains s t)
  | _ => inl TypeError
  end.

(** [v[s]] for a [str] index. *)
Definition getitem (v : json) (s : string) : exn + json :=
  match v with
  | JObj fields =>
      match lookup s fields with Some x => inr x | None => inl KeyError end
  | _ => inl TypeError
  end.

End Py.

(** ** The parsed efetch document *)

(** What [BeautifulSoup(response.content, "xml")] holds: text and elements,
    in document order. *)
Inductive node : Type :=
| Text (s : string)
| Elem (name : string) (children : list node).

Module Soup.

(** A node followed by its descendants, in document order. *)
Fixpoint preorder (n : node) : list node :=
  n :: match n with
       | Text _ => []
       | Elem _ children => flat_map preorder children
       end.

Definition descendants (n : node) : list node :=
  match n with
  | Text _ => []
  | Elem _ children => flat_map preorder children
  end.

(** [tag.text]: the text below the node, concatenated. *)
Fixpoint text (n : node) : string :=
  match n with
  | Text s => s
  | Elem _ children => String.concat "" (map text children)
  end.

Definition is_tag (name : string) (n : node) : bool :=
  match n with
  | Text _ => false
  | Elem m _ => String.eqb m name
  end.

(** An element of the document together with the rest of the document
    after its opening tag ([next_elements]: its own descendants first). *)
Record tag : Type := { here : node; next_elements : list node }.

Fixpoint positions (nodes : list node) : list tag :=
  match nodes with
  | [] => []
  | n :: rest => {| here := n; next_elements := rest |} :: positions rest
  end.

(** [soup.find_all(name)] *)
Definition find_all (name : string) (document : list node) : list tag :=
  filter (fun t => is_tag name (here t) = true) (positions (flat_map preorder document)).

(** [tag.find(name)]: the first matching descendant. *)
Definition find (name : string) (t : tag) : option node :=
  List.find (is_tag name) (descendants (here t)).

(** [tag.find_next(name)]: the first matching element after the tag. *)
Definition find_next (name : string) (t : tag) : option node :=
  List.find (is_tag name) (next_elements t).

End Soup.

(** ** The world the script runs in *)

(** The three GET requests, by what varies in their parameters. *)
Inductive request : Type :=
| Esearch (term : string) (retmax : nat)
| Esummary (id : string)
| Efetch (id : string).

(** A response body, by what its two readers make of it: [response.json()]
    ([None] when it raises JSONDecodeError) and the XML parser. *)
Record body : Type := { json_of : option json; xml_of : list node }.

Inductive reply : Type :=
| TransportError         (* requests.get raises: no connection, timeout *)
| HttpError              (* a status that raise_for_status rejects *)
| Success (b : body).

Record row : Type := {
  Paper_ID : string;
  Title : json;
  Publication_Date : json;
  Authors : string;
  Affiliations : string
}.

Record csv_file : Type := {
  encoding : string;
  header : list string;
  records : list row
}.

(** The lines the script prints, by print statement and interpolated value. *)
Inductive message : Type :=
| FetchingPapers (query : string) (attempt : nat)
| NoPapersFound
| FetchedPaperIds (paper_ids : json)
| ErrorFetchingPapers
| RetryingIn (delay : nat)
| FailedPapers
| FetchingDetails (count : nat) (attempt : nat)
| ErrorFetchingDetails
| FailedDetails
| FetchingAuthors (paper_id : string) (attempt : nat)
| ErrorFetchingAuthors (paper_id : string)
| FailedAuthors
| ScriptStarted
| QueryReceived (query : string)
| NoDetailsFetched
| SavedToCsv
| NoNonAcademicPapers.

Inductive event : Type :=
| Get (r : request) (answer : reply)
| Sleep (seconds : nat)
| Print (m : message)
| WriteFile (path : string).

(** The network answers a request knowing everything that happened before;
    the trace keeps each request with the answer it got. *)
Record world : Type := {
  network : list event -> request -> reply;
  trace : list event;
  files : gmap string csv_file
}.

Inductive outcome (A : Type) : Type :=
| Ret (a : A)
| Raise (e : exn)
| Exited.                (* exit() *)
Arguments Ret {A} a.
Arguments Raise {A} e.
Arguments Exited {A}.

Definition M (A : Type) : Type := world -> outcome A * world.

#[global] Instance M_ret : MRet M := fun A a w => (Ret a, w).

#[global] Instance M_bind : MBind M := fun A B f m w =>
  match m w with
  | (Ret a, w') => f a w'
  | (Raise e, w') => (Raise e, w')
  | (Exited, w') => (Exited, w')
  end.

Definition raise {A} (e : exn) : M A := fun w => (Raise e, w).
Definition exit {A} : M A := fun w => (Exited, w).

(** The world after some more events. *)
Definition log (w : world) (events : list event) : world :=
  {| network := network w; trace := trace w ++ events; files := files w |}.

Arguments log : simpl never.

Definition emit (e : event) : M unit := fun w => (Ret tt, log w [e]).

Definition print (m : message) : M unit := emit (Print m).
Definition sleep (seconds : nat) : M unit := emit (Sleep seconds).

(** Lifts the result of a dynamically typed operation. *)
Definition lift {A} (r : exn + A) : M A :=
  match r with inl e => raise e | inr a => mret a end.

Definition or_type_error {A} (o : option A) : M A :=
  match o with Some a => mret a | None => raise TypeError end.

(** [try: body except requests.exceptions.RequestException: handler] *)
Definition try_except {A} (body handler : M A) : M A := fun w =>
  match body w with
  | (Raise RequestException, w') => handler w'
  | r => r
  end.

(** [requests.get(url, params=..., timeout=30)] *)
Definition requests_get (r : request) : M reply := fun w =>
  let answer := network w (trace w) r in
  let w' := log w [Get r answer] in
  match answer with
  | TransportError => (Raise RequestException, w')
  | _ => (Ret answer, w')
  end.

(** [response.raise_for_status()] *)
Definition raise_for_status (response : reply) : M body :=
  match response with
  | Success b => mret b
  | _ => raise RequestException
  end.

(** [response.json()]; on a body that is not JSON it raises
    requests.exceptions.JSONDecodeError, a RequestException (requests 2.27
    and later). *)
Definition response_json (b : body) : M json :=
  match json_of b with
  | Some j => mret j
  | None => raise RequestException
  end.

(** One round of [for attempt in range(max_retries)]: go on, or [return]. *)
Inductive flow (A : Type) : Type :=
| Continue
| Return (a : A).
Arguments Continue {A}.
Arguments Return {A} a.

(** The loop over the attempts; [None] when the loop ends without
    [return], where the Python function returns [None]. *)
Fixpoint for_attempts {A} (attempts : list nat) (round : nat -> M (flow A)) : M (option A) :=
  match attempts with
  | [] => mret None
  | attempt :: rest =>
      r ← round attempt;
      match r with
      | Return a => mret (Some a)
      | Continue => for_attempts rest round
      end
  end.

(** The [except] branch the three stages share but for their messages and
    their empty result. *)
Definition on_request_exception {A}
    (error failed : message) (empty : A) (max_retries delay attempt : nat) : M (flow A) :=
  print error;;
  if attempt <? max_retries - 1
  then print (RetryingIn delay);; sleep delay;; mret Continue
  else print failed;; mret (Return empty).

(** ** The three stages (get_papers.py, lines 6-103) *)

Definition fetch_papers (query : string) (max_retries delay : nat) : M json :=
  r ← for_attempts (seq 0 max_retries) (fun attempt =>
         try_except
           (print (FetchingPapers query (attempt + 1));;
            response ← requests_get (Esearch query 5);
            b ← raise_for_status response;
            j ← response_json b;
            result ← lift (Py.get j "esearchresult" (JObj []));
            paper_ids ← lift (Py.get result "idlist" (JArr []));
            if negb (Py.truthy paper_ids)
            then print NoPapersFound;; mret (Return (JArr []))
            else print (FetchedPaperIds paper_ids);; mret (Return paper_ids))
           (on_request_exception ErrorFetchingPapers FailedPapers (JArr [])
              max_retries delay attempt));
  mret (default JNull r).

Definition get_paper_details (paper_ids : json) (max_retries delay : nat) : M json :=
  items ← or_type_error (Py.str_items paper_ids);
  let id := PyStr.join "," items in
  r ← for_attempts (seq 0 max_retries) (fun attempt =>
         try_except
           (count ← or_type_error (Py.len paper_ids);
            print (FetchingDetails count (attempt + 1));;
            response ← requests_get (Esummary id);
            b ← raise_for_status response;
            j ← response_json b;
            result ← lift (Py.get j "result" (JObj []));
            mret (Return result))
           (on_request_exception ErrorFetchingDetails FailedDetails (JObj [])
              max_retries delay attempt));
  mret (default JNull r).

(** The f-string of line 88, stripped. *)
Definition author_name (author : Soup.tag) : string :=
  let last_name := Soup.find "LastName" author in
  let fore_name := Soup.find "ForeName" author in
  PyStr.strip
    (String.append (from_option Soup.text "" fore_name)
       (String.append " " (from_option Soup.text "" last_name))).

(** The body of the loop of lines 83-92 on the two lists it appends to. *)
Definition extract_author (acc : list string * list string) (author : Soup.tag)
    : list string * list string :=
  let '(authors, affiliations) := acc in
  let affiliation := Soup.find_next "Affiliation" author in
  let authors := authors ++ [author_name author] in
  match affiliation with
  | Some a => (authors, affiliations ++ [Soup.text a])
  | None => (authors, affiliations)
  end.

Definition extract_authors (soup : list node) : list string * list string :=
  fold_left extract_author (Soup.find_all "Author" soup) ([], []).

Definition get_author_affiliations (paper_id : string) (max_retries delay : nat)
    : M (option (list string * list string)) :=
  for_attempts (seq 0 max_retries) (fun attempt =>
    try_except
      (print (FetchingAuthors paper_id (attempt + 1));;
       response ← requests_get (Efetch paper_id);
       b ← raise_for_status response;
       let soup := xml_of b in
       mret (Return (extract_authors soup)))
      (on_request_exception (ErrorFetchingAuthors paper_id) FailedAuthors ([], [])
         max_retries delay attempt)).

(** ** The script (get_papers.py, lines 110-147) *)

(** The keys of the dict of lines 134-140, which become the columns. *)
Definition row_columns : list string :=
  ["Paper ID"; "Title"; "Publication Date"; "Authors"; "Affiliations"].

(** [pd.DataFrame(rows).to_csv(path, index=False, encoding=enc)]: the file at
    [path] is replaced by the table. *)
Definition to_csv (rows : list row) (path enc : string) : M unit := fun w =>
  let table := {| encoding := enc; header := row_columns; records := rows |} in
  (Ret tt,
   {| network := network w;
      trace := trace w ++ [WriteFile path];
      files := <[path := table]> (files w) |}).

(** The body of the loop of lines 126-140 on the list it appends to. *)
Definition process_paper (paper_data : json) (filtered_papers : list row)
    (paper_id : string) : M (list row) :=
  present ← lift (Py.contains paper_id paper_data);
  if present : bool then
    entry ← lift (Py.getitem paper_data paper_id);
    title ← lift (Py.get entry "title" (JStr "No Title Available"));
    entry ← lift (Py.getitem paper_data paper_id);
    pub_date ← lift (Py.get entry "pubdate" (JStr "No Date Available"));
    fetched ← get_author_affiliations paper_id 3 5;
    '(authors, affiliations) ← or_type_error fetched;
    if is_non_academic_affiliation affiliations
    then mret (filtered_papers ++
                 [{| Paper_ID := paper_id;
                     Title := title;
                     Publication_Date := pub_date;
                     Authors := PyStr.join "; " authors;
                     Affiliations := PyStr.join "; " affiliations |}])
    else mret filtered_papers
  else mret filtered_papers.

Fixpoint for_each_paper (paper_data : json) (paper_ids : list string)
    (filtered_papers : list row) : M (list row) :=
  match paper_ids with
  | [] => mret filtered_papers
  | paper_id :: rest =>
      filtered_papers ← process_paper paper_data filtered_papers paper_id;
      for_each_paper paper_data rest filtered_papers
  end.

(** The script from the line read by [input] on; the result is the value of
    [filtered_papers] when it ends.  [",".join(paper_ids)] has raised in
    [get_paper_details] unless [paper_ids] yields strings, so the iteration
    of line 126 is over [Py.str_items]. *)
Definition main (line : string) : M (list row) :=
  print ScriptStarted;;
  let query := PyStr.strip line in
  print (QueryReceived query);;
  paper_ids ← fetch_papers query 3 5;
  if negb (Py.truthy paper_ids) then print NoPapersFound;; exit else
  paper_data ← get_paper_details paper_ids 3 5;
  if negb (Py.truthy paper_data) then print NoDetailsFetched;; exit else
  ids ← or_type_error (Py.str_items paper_ids);
  filtered_papers ← for_each_paper paper_data ids [];
  match filtered_papers with
  | _ :: _ =>
      to_csv filtered_papers "filtered_papers.csv" "utf-8";;
      print SavedToCsv;;
      mret filtered_papers
  | [] =>
      print NoNonAcademicPapers;;
      mret filtered_papers
  end.

(** ** Vocabulary of the statements *)

Definition is_print (e : event) : bool :=
  match e with Print _ => true | _ => false end.

(** The events other than console output: requests, pauses, file writes. *)
Definition wire (events : list event) : list event :=
  List.filter (fun e => negb (is_print e)) events.

Definition quiet (events : list event) : Prop := wire events = [].

(** One request per answer, with a pause of [delay] between two requests. *)
Fixpoint retry_wire (r : request) (delay : nat) (answers : list reply) : list event :=
  match answers with
  | [] => []
  | [a] => [Get r a]
  | a :: rest => Get r a :: Sleep delay :: retry_wire r delay rest
  end.

(** The shape the three retry loops share: [decode] is what the [try] block
    does with the body of an accepted response, [bad] tells the bodies on
    which it raises a RequestException. *)
Section attempts.
Context {A : Type}.
Variable start : nat -> message.
Variables (error failed : message) (r : request) (empty : A).
Variables (max_retries delay : nat).
Variable decode : body -> M (flow A).
Variable bad : body -> bool.

Definition failing (answer : reply) : bool :=
  match answer with Success b => bad b | _ => true end.

Definition round (attempt : nat) : M (flow A) :=
  try_except
    (print (start attempt);;
     response ← requests_get r;
     b ← raise_for_status response;
     decode b)
    (on_request_exception error failed empty max_retries delay attempt).

End attempts.

(** What the three [try] blocks do once the response is accepted. *)
Definition decode_search (b : body) : M (flow json) :=
  j ← response_json b;
  result ← lift (Py.get j "esearchresult" (JObj []));
  paper_ids ← lift (Py.get result "idlist" (JArr []));
  if negb (Py.truthy paper_ids)
  then print NoPapersFound;; mret (Return (JArr []))
  else print (FetchedPaperIds paper_ids);; mret (Return paper_ids).

Definition decode_summary (b : body) : M (flow json) :=
  j ← response_json b;
  result ← lift (Py.get j "result" (JObj []));
  mret (Return result).

Definition decode_fetch (b : body) : M (flow (list string * list string)) :=
  mret (Return (extract_authors (xml_of b))).

(** A body [response.json()] cannot decode. *)
Definition undecodable (b : body) : bool :=
  match json_of b with None => true | Some _ => false end.

(** A failed attempt of a JSON stage, and of the efetch stage. *)
Definition json_failure : reply -> bool := failing undecodable.
Definition xml_failure : reply -> bool := failing (fun _ => false).

(** The answers the requests of a trace got, in order. *)
Definition answers_of (events : list event) : list reply :=
  flat_map (fun e => match e with Get _ a => [a] | _ => [] end) events.

(** What a stage adds to the trace: the requests of its retry loop, all to
    [r], at most [max_retries] of them; it ends by a value or by an exception
    that is not a RequestException; when every attempt fails the value is
    [empty]. *)
Definition retries {A} (r : request) (failure : reply -> bool) (empty : A)
    (max_retries delay : nat) (events : list event) (o : outcome A) : Prop :=
  wire events = retry_wire r delay (answers_of events) /\
  length (answers_of events) <= max_retries /\
  o <> Exited /\ o <> Raise RequestException /\
  (answers_of events <> [] ->
   forallb failure (answers_of events) = true ->
   o = Ret empty /\ length (answers_of events) = max_retries).

Definition outcome_map {A B} (f : A -> B) (o : outcome A) : outcome B :=
  match o with
  | Ret a => Ret (f a)
  | Raise e => Raise e
  | Exited => Exited
  end.

(** An event of a run that sends requests to [allowed] addresses only and
    writes no file. *)
Definition on_wire (allowed : request -> Prop) (e : event) : Prop :=
  match e with
  | Get r _ => allowed r
  | WriteFile _ => False
  | _ => True
  end.

(** No event of the list is a file write. *)
Definition no_file_written (events : list event) : Prop :=
  Forall (on_wire (fun _ => True)) events.

(** Where a row comes from, in a run of the loop from world [w] to world
    [w']: its identifier is in [paper_data], title and date are read from the
    entry of that identifier (or defaulted), and authors and affiliations are
    those a call of the efetch stage for that identifier returned during the
    run, the affiliations passing the classifier. *)
Definition row_from (paper_data : json) (w w' : world) (r : row) : Prop :=
  exists entry authors affiliations before during after,
    Py.contains (Paper_ID r) paper_data = inr true /\
    Py.getitem paper_data (Paper_ID r) = inr entry /\
    Py.get entry "title" (JStr "No Title Available") = inr (Title r) /\
    Py.get entry "pubdate" (JStr "No Date Available") = inr (Publication_Date r) /\
    get_author_affiliations (Paper_ID r) 3 5 (log w before)
      = (Ret (Some (authors, affiliations)), log w (before ++ during)) /\
    trace w' = trace w ++ before ++ during ++ after /\
    is_non_academic_affiliation affiliations = true /\
    Authors r = PyStr.join "; " authors /\
    Affiliations r = PyStr.join "; " affiliations.

(** The file the script writes. *)
Definition filtered_papers_csv (rows : list row) : csv_file :=
  {| encoding := "utf-8";
     header := ["Paper ID"; "Title"; "Publication Date"; "Authors"; "Affiliations"];
     records := rows |}.

(** An efetch request for one of [ids] that [paper_data] has. *)
Definition fetch_of (paper_data : json) (ids : list string) (r : request) : Prop :=
  exists id, r = Efetch id /\ id ∈ ids /\ Py.contains id paper_data = inr true.

(** What one round of the loop over the papers does: requests to efetch
    for this paper only, no file, no exit, no RequestException, and the list
    of rows unchanged or longer by one row for this paper. *)
Definition paper_step (paper_data : json) (filtered : list row) (paper_id : string)
    (w : world) (events : list event) (o : outcome (list row)) : Prop :=
  Forall (on_wire (fetch_of paper_data [paper_id])) events /\
  o <> Exited /\ o <> Raise RequestException /\
  forall rows, o = Ret rows ->
    rows = filtered \/
    exists r, rows = filtered ++ [r] /\ Paper_ID r = paper_id /\
              row_from paper_data w (log w events) r.

(** The same for the whole loop: the new rows follow the order of the
    identifiers. *)
Definition papers_loop (paper_data : json) (filtered : list row) (ids : list string)
    (w : world) (events : list event) (o : outcome (list row)) : Prop :=
  Forall (on_wire (fetch_of paper_data ids)) events /\
  o <> Exited /\ o <> Raise RequestException /\
  forall rows, o = Ret rows ->
    exists new, rows = filtered ++ new /\
                map Paper_ID new `sublist_of` ids /\
                Forall (row_from paper_data w (log w events)) new.

(** The world once the script has printed its two opening lines. *)
Definition started (line : string) (w : world) : world :=
  log w [Print ScriptStarted; Print (QueryReceived (PyStr.strip line))].

(** The world once [filtered_papers.csv] is written and reported. *)
Definition saved (rows : list row) (w : world) : world :=
  log {| network := network w;
         trace := trace w ++ [WriteFile "filtered_papers.csv"];
         files := <["filtered_papers.csv" := filtered_papers_csv rows]> (files w) |}
      [Print SavedToCsv].

(** ** The documented shape of the replies *)











(** ** Example worlds *)

Definition json_body (j : json) : body := {| json_of := Some j; xml_of := [] |}.
Definition xml_body (document : list node) : body :=
  {| json_of := None; xml_of := document |}.

(** A world with no network: every request ends in a transport error. *)
Definition offline : world :=
  {| network := fun _ _ => TransportError; trace := []; files := ∅ |}.

(** An efetch document with two authors, the second without name parts, and
    one affiliation; and a world that serves it to every request. *)
Definition two_authors : list node :=
  [Elem "PubmedArticle"
     [Elem "AuthorList"
        [Elem "Author"
           [Elem "LastName" [Text "Smith"]; Elem "ForeName" [Text "John"];
            Elem "AffiliationInfo" [Elem "Affiliation" [Text "Pfizer Inc., USA"]]];
         Elem "Author" [Elem "CollectiveName" [Text "The Consortium"]]]]].

Definition serving (b : body) : world :=
  {| network := fun _ _ => Success b; trace := []; files := ∅ |}.

(** A world whose network answers by the kind of request alone. *)
Definition answering (search summary fetch : reply) : world :=
  {| network := fun _ r =>
       match r with
       | Esearch _ _ => search
       | Esummary _ => summary
       | Efetch _ => fetch
       end;
     trace := [];
     files := ∅ |}.

Definition search_reply (ids : list string) : reply :=
  Success (json_body (JObj [("esearchresult", JObj [("idlist", JArr (map JStr ids))])])).

Definition summary_reply (entries : list (string * json)) : reply :=
  Success (json_body (JObj [("result", JObj entries)])).

(** One paper, found, summarised and fetched with an industry affiliation. *)
Definition one_paper : world :=
  answering
    (search_reply ["111"])
    (summary_reply [("uids", JArr [JStr "111"]);
                    ("111", JObj [("title", JStr "T"); ("pubdate", JStr "2020")])])
    (Success (xml_body two_authors)).

Definition one_paper_row : row :=
  {| Paper_ID := "111";
     Title := JStr "T";
     Publication_Date := JStr "2020";
     Authors := "John Smith; ";
     Affiliations := "Pfizer Inc., USA" |}.


(** ** Vocabulary of the further properties *)

(** The seconds a trace spends in [time.sleep]. *)
Fixpoint total_sleep (events : list event) : nat :=
  match events with
  | [] => 0
  | Sleep seconds :: rest => seconds + total_sleep rest
  | _ :: rest => total_sleep rest
  end.

(** The affiliation the loop of lines 83-92 records for an author, if any. *)
Definition affiliation_of (author : Soup.tag) : option string :=
  Soup.text <$> Soup.find_next "Affiliation" author.

(** Whether the character occurs in the string. *)
Fixpoint has_char (c : ascii) (s : string) : bool :=
  match s with
  | EmptyString => false
  | String d s' => Ascii.eqb c d || has_char c s'
  end.

(** The number of identifiers the search stage of the script returns in a
    run from [w] (none when it raises). *)
Definition found (line : string) (w : world) : nat :=
  match fetch_papers (PyStr.strip line) 3 5 (started line w) with
  | (Ret paper_ids, _) => length (default [] (Py.str_items paper_ids))
  | _ => 0
  end.

Definition first_char (s : string) : option ascii :=
  match s with
  | EmptyString => None
  | String c _ => Some c
  end.

Fixpoint last_char (s : string) : option ascii :=
  match s with
  | EmptyString => None
  | String c EmptyString => Some c
  | String _ s' => last_char s'
  end.

(** The answer of the network to the first request of a stage that starts
    in [w] by printing [m]. *)
Definition first_answer (w : world) (m : message) (r : request) : reply :=
  network w (trace w ++ [Print m]) r.

(** The requests of a trace, in order. *)
Definition requests_of (events : list event) : list request :=
  flat_map (fun e => match e with Get r _ => [r] | _ => [] end) events.

(** * Properties *)

(** ** Strings *)

Section string_facts.

Lemma app_cons c (s t : string) : String c s +:+ t = String c (s +:+ t).
Proof. reflexivity. Qed.

Lemma prefix_spec (sub s : string) :
  String.prefix sub s = true <-> exists post, s = sub +:+ post.
Proof.
  revert s. induction sub as [|a sub IH]; intros s.
  - destruct s; simpl; split; eauto.
  - destruct s as [|b s]; simpl.
    + split; [discriminate | intros [post H]; discriminate].
    + destruct (ascii_dec a b) as [->|Hab].
      * rewrite IH. split; intros [post H]; exists post.
        -- rewrite app_cons. by f_equal.
        -- rewrite app_cons in H. by injection H.
      * split; [discriminate | intros [post H]].
        rewrite app_cons in H. injection H as H1 _. congruence.
Qed.

(** [PyStr.contains] is the substring test. *)
Lemma contains_spec (sub s : string) :
  PyStr.contains sub s = true <-> exists pre post, s = pre +:+ sub +:+ post.
Proof.
  induction s as [|c s IH]; cbn [PyStr.contains].
  - rewrite orb_false_r, prefix_spec. split.
    + intros [post H]. by exists "", post.
    + intros [pre [post H]]. destruct pre; [by exists post|discriminate].
  - rewrite orb_true_iff, prefix_spec, IH. split.
    + intros [[post H]|[pre [post H]]].
      * by exists "", post.
      * exists (String c pre), post. rewrite app_cons. by f_equal.
    + intros [pre [post H]]. destruct pre as [|c' pre].
      * left. by exists post.
      * right. exists pre, post. rewrite app_cons in H. by injection H.
Qed.





End string_facts.

(** ** The classifier *)

Section classifier.

Lemma classify_unfold affiliations :
  is_non_academic_affiliation affiliations = existsb mentions_keyword affiliations.
Proof. reflexivity. Qed.

Lemma classify_true affiliations :
  is_non_academic_affiliation affiliations = true <->
  exists aff, aff ∈ affiliations /\ mentions_keyword aff = true.
Proof.
  rewrite classify_unfold, existsb_exists.
  split; intros [aff [H1 H2]]; exists aff; split; try done; by apply list_elem_of_In.
Qed.

Lemma mentions_keyword_spec aff :
  mentions_keyword aff = true <->
  exists keyword pre post,
    keyword ∈ keywords /\ PyStr.lower aff = pre +:+ keyword +:+ post.
Proof.
  unfold mentions_keyword. rewrite existsb_exists. split.
  - intros [keyword [Hin Hsub]]. apply contains_spec in Hsub as [pre [post H]].
    exists keyword, pre, post. split; [by apply list_elem_of_In|done].
  - intros [keyword [pre [post [Hin H]]]]. exists keyword.
    split; [by apply list_elem_of_In|]. apply contains_spec. eauto.
Qed.

(** The result depends on the members of the list only. *)
Lemma classify_members l1 l2 :
  (forall aff, aff ∈ l1 -> aff ∈ l2) ->
  is_non_academic_affiliation l1 = true -> is_non_academic_affiliation l2 = true.
Proof.
  intros Hsub. rewrite !classify_true. intros [aff [Hin Hkw]]. exists aff. auto.
Qed.

Lemma classify_same_members l1 l2 :
  (forall aff, aff ∈ l1 <-> aff ∈ l2) ->
  is_non_academic_affiliation l1 = is_non_academic_affiliation l2.
Proof.
  intros Hsame.
  destruct (is_non_academic_affiliation l1) eqn:H1,
           (is_non_academic_affiliation l2) eqn:H2; try done.
  - rewrite <- H2. symmetry. apply (classify_members l1); [intros; by apply Hsame|done].
  - rewrite <- H1. apply (classify_members l2); [intros; by apply Hsame|done].
Qed.


End classifier.

(** C1. The classifier answers true exactly when some affiliation, lowercased,
    has one of the eight keywords as a substring; it answers false on the
    empty list, and true on ["XYZ Company Holdings"] (through "company") and
    on ["AppendLtd"] (through "ltd"). *)
Theorem classify_iff_keyword_substring :
  (forall affiliations : list string,
     is_non_academic_affiliation affiliations = true <->
     exists aff keyword pre post,
       aff ∈ affiliations /\
       keyword ∈ ["pharma"; "biotech"; "laboratories"; "inc."; "corporation";
                  "company"; "llc"; "ltd"] /\
       PyStr.lower aff = pre +:+ keyword +:+ post) /\
  is_non_academic_affiliation [] = false /\
  (is_non_academic_affiliation ["XYZ Company Holdings"] = true /\
   PyStr.lower "XYZ Company Holdings" = "xyz " +:+ "company" +:+ " holdings") /\
  (is_non_academic_affiliation ["AppendLtd"] = true /\
   PyStr.lower "AppendLtd" = "append" +:+ "ltd" +:+ "").
Proof.
  split; [|by repeat split].
  intros affiliations. rewrite classify_true. split.
  - intros [aff [Hin Hkw]]. apply mentions_keyword_spec in Hkw as (kw & pre & post & Hk & H).
    by exists aff, kw, pre, post.
  - intros (aff & kw & pre & post & Hin & Hk & H). exists aff. split; [done|].
    apply mentions_keyword_spec. by exists kw, pre, post.
Qed.




(** C10. The classifier's answer is the same for a permutation of the list
    and for any list with the same members (so duplicates do not matter),
    and an answer of true survives adding affiliations. *)
Theorem classify_permutation_duplication_monotone :
  forall l1 l2 : list string,
    (l1 ≡ₚ l2 -> is_non_academic_affiliation l1 = is_non_academic_affiliation l2) /\
    ((forall aff, aff ∈ l1 <-> aff ∈ l2) ->
     is_non_academic_affiliation l1 = is_non_academic_affiliation l2) /\
    (l1 ⊆ l2 ->
     is_non_academic_affiliation l1 = true -> is_non_academic_affiliation l2 = true).
Proof.
  intros l1 l2. split; [|split].
  - intros Hperm. apply classify_same_members. intros aff. by rewrite Hperm.
  - apply classify_same_members.
  - intros Hsub. apply classify_members. intros aff. apply Hsub.
Qed.

Lemma classify_permutation_duplication_monotone_witness :
  (is_non_academic_affiliation ["MIT"; "Acme LLC"] = is_non_academic_affiliation ["Acme LLC"; "MIT"]) /\
  (is_non_academic_affiliation ["Acme LLC"] = is_non_academic_affiliation ["Acme LLC"; "Acme LLC"]) /\
  (is_non_academic_affiliation ["MIT"; "Acme LLC"; "Harvard"] = true).
Proof.
  split; [|split].
  - destruct (classify_permutation_duplication_monotone
                ["MIT"; "Acme LLC"] ["Acme LLC"; "MIT"]) as [H _].
    apply H, Permutation_swap.
  - destruct (classify_permutation_duplication_monotone
                ["Acme LLC"] ["Acme LLC"; "Acme LLC"]) as (_ & H & _).
    apply H. intros aff. rewrite !elem_of_cons. tauto.
  - destruct (classify_permutation_duplication_monotone
                ["Acme LLC"] ["MIT"; "Acme LLC"; "Harvard"]) as (_ & _ & H).
    apply H.
    + intros aff. rewrite !elem_of_cons. tauto.
    + reflexivity.
Defined.

(** ** The retry loop *)

Lemma log_nil w : log w [] = w.
Proof. destruct w. unfold log. simpl. by rewrite app_nil_r. Qed.

Lemma log_log w e1 e2 : log (log w e1) e2 = log w (e1 ++ e2).
Proof. unfold log. simpl. by rewrite app_assoc. Qed.

Lemma trace_log w events : trace (log w events) = trace w ++ events.
Proof. reflexivity. Qed.

Lemma files_log w events : files (log w events) = files w.
Proof. reflexivity. Qed.

Lemma wire_app e1 e2 : wire (e1 ++ e2) = wire e1 ++ wire e2.
Proof. apply List.filter_app. Qed.

Lemma quiet_wire_app_r e1 e2 : quiet e2 -> wire (e1 ++ e2) = wire e1.
Proof. intros H. by rewrite wire_app, H, app_nil_r. Qed.

Lemma retry_wire_cons r delay a answers :
  answers <> [] ->
  retry_wire r delay (a :: answers) = [Get r a; Sleep delay] ++ retry_wire r delay answers.
Proof. by destruct answers. Qed.

Lemma answers_of_retry_wire r delay answers :
  answers_of (retry_wire r delay answers) = answers.
Proof.
  induction answers as [|a [|a' rest] IH]; try done.
  change (a :: answers_of (retry_wire r delay (a' :: rest)) = a :: a' :: rest).
  by rewrite IH.
Qed.

Lemma answers_of_wire events : answers_of (wire events) = answers_of events.
Proof.
  induction events as [|[] events IH]; simpl; try done. by rewrite IH.
Qed.

Ltac run_M := unfold print, sleep, emit, raise, exit, lift, or_type_error,
  mbind, M_bind, mret, M_ret; simpl.

Section attempts_facts.
Context {A : Type}.
Variable start : nat -> message.
Variables (error failed : message) (r : request) (empty : A).
Variables (max_retries delay : nat).
Variable decode : body -> M (flow A).
Variable bad : body -> bool.

Hypothesis decode_spec : forall b w,
  exists o prints, decode b w = (o, log w prints) /\ quiet prints /\
    o <> Exited /\ o <> Ret Continue /\
    (bad b = true <-> o = Raise RequestException).

Lemma handler_spec attempt w evs answer :
  wire evs = [Get r answer] ->
  exists events o,
    on_request_exception error failed empty max_retries delay attempt (log w evs)
      = (o, log w events) /\ o <> Exited /\ o <> Raise RequestException /\
    if attempt <? max_retries - 1
    then o = Ret Continue /\ wire events = [Get r answer; Sleep delay]
    else o = Ret (Return empty) /\ wire events = [Get r answer].
Proof.
  intros Hevs. unfold on_request_exception. run_M.
  destruct (attempt <? max_retries - 1); rewrite !log_log; eexists _, _;
    (split; [reflexivity|]); repeat split; try done;
    rewrite wire_app, Hevs; reflexivity.
Qed.

(** One round issues one request; it goes on, after a pause, exactly when
    the attempt failed and was not the last. *)
Lemma round_spec attempt w :
  exists answer events o,
    round start error failed r empty max_retries delay decode attempt w
      = (o, log w events) /\
    o <> Exited /\ o <> Raise RequestException /\
    if failing bad answer
    then if attempt <? max_retries - 1
         then o = Ret Continue /\ wire events = [Get r answer; Sleep delay]
         else o = Ret (Return empty) /\ wire events = [Get r answer]
    else o <> Ret Continue /\ wire events = [Get r answer].
Proof.
  unfold round, try_except, requests_get. run_M.
  set (answer := network w (trace w ++ [Print (start attempt)]) r).
  exists answer.
  destruct answer as [| |b] eqn:Hans; simpl.
  - rewrite !log_log. by apply handler_spec.
  - rewrite !log_log. by apply handler_spec.
  - rewrite !log_log.
    destruct (decode_spec b (log w ([Print (start attempt)] ++ [Get r (Success b)])))
      as (o & prints & -> & Hq & Hex & Hcont & Hbad).
    rewrite log_log.
    destruct (bad b) eqn:Hb.
    + assert (o = Raise RequestException) as -> by by apply Hbad.
      apply handler_spec. by rewrite quiet_wire_app_r.
    + assert (o <> Raise RequestException) as Hne
        by (intros ->; destruct Hbad as [_ H]; by specialize (H eq_refl)).
      eexists _, o. split; [destruct o as [a|[]|]; done|].
      repeat split; try done. by rewrite quiet_wire_app_r.
Qed.

(** The loop over the attempts [a, a+1, ..., max_retries-1]. *)
Lemma attempts_spec n : forall a w,
  a + n = max_retries ->
  exists answers events o,
    for_attempts (seq a n)
      (round start error failed r empty max_retries delay decode) w
      = (o, log w events) /\
    wire events = retry_wire r delay answers /\
    length answers <= n /\
    o <> Exited /\ o <> Raise RequestException /\
    (n = 0 -> o = Ret None) /\
    (0 < n ->
       answers <> [] /\ o <> Ret None /\
       (forallb (failing bad) answers = true ->
        o = Ret (Some empty) /\ length answers = n)).
Proof.
  induction n as [|n IH]; intros a w Hmax.
  - exists [], [], (Ret None). rewrite log_nil. repeat split; try done; lia.
  - cbn [seq for_attempts]. unfold mbind at 1, M_bind at 1.
    destruct (round_spec a w) as (answer & ev1 & o1 & -> & Hex & Hreq & Hcase).
    destruct (failing bad answer) eqn:Hfail.
    + destruct (a <? max_retries - 1) eqn:Hlast.
      * destruct Hcase as [-> Hw1]. apply Nat.ltb_lt in Hlast.
        destruct (IH (S a) (log w ev1))
          as (answers & ev2 & o & -> & Hw2 & Hlen & Hex2 & Hreq2 & _ & Hpos); [lia|].
        destruct Hpos as (Hne & Hnone & Hall); [lia|].
        exists (answer :: answers), (ev1 ++ ev2), o. rewrite log_log.
        split; [done|]. split; [by rewrite wire_app, Hw1, Hw2, retry_wire_cons|].
        split; [simpl; lia|]. do 2 (split; [done|]). split; [done|].
        intros _. do 2 (split; [done|]).
        intros Hf. simpl in Hf. rewrite Hfail in Hf.
        destruct (Hall Hf) as [-> Hl]. split; [done|simpl; lia].
      * destruct Hcase as [-> Hw1]. apply Nat.ltb_ge in Hlast.
        exists [answer], ev1, (Ret (Some empty)).
        split; [done|]. split; [done|]. split; [simpl; lia|].
        do 2 (split; [done|]). split; [done|].
        intros _. do 2 (split; [done|]). intros _. split; [done|simpl; lia].
    + destruct Hcase as [Hcont Hw1].
      assert (forall o : outcome (option A),
                o <> Exited -> o <> Raise RequestException -> o <> Ret None ->
                wire ev1 = retry_wire r delay [answer] /\
                length [answer] <= S n /\
                o <> Exited /\ o <> Raise RequestException /\
                (S n = 0 -> o = Ret None) /\
                (0 < S n ->
                 [answer] <> [] /\ o <> Ret None /\
                 (forallb (failing bad) [answer] = true ->
                  o = Ret (Some empty) /\ length [answer] = S n))) as Hrest.
      { intros o ???. split; [done|]. split; [simpl; lia|].
        do 2 (split; [done|]). split; [done|].
        intros _. do 2 (split; [done|]). simpl. by rewrite Hfail. }
      destruct o1 as [[|v]|e|]; try done.
      * exists [answer], ev1, (Ret (Some v)). split; [done|]. by apply Hrest.
      * exists [answer], ev1, (Raise e). split; [done|].
        apply Hrest; try done. intros [= ->]. by apply Hreq.
Qed.

Lemma attempts_retries w :
  exists events o,
    for_attempts (seq 0 max_retries)
      (round start error failed r empty max_retries delay decode) w
      = (o, log w events) /\
    retries r (failing bad) (Some empty) max_retries delay events o /\
    (0 < max_retries -> o <> Ret None).
Proof.
  destruct (attempts_spec max_retries 0 w)
    as (answers & events & o & Hrun & Hwire & Hlen & Hex & Hreq & Hzero & Hpos); [done|].
  assert (answers_of events = answers) as Hans.
  { by rewrite <- answers_of_wire, Hwire, answers_of_retry_wire. }
  exists events, o. split; [done|]. unfold retries. rewrite Hans.
  split; [|intros Hm; by apply Hpos].
  do 4 (split; [done|]).
  intros Hne Hall. destruct max_retries as [|n] eqn:Hm.
  - destruct answers; [done|simpl in Hlen; lia].
  - apply Hpos; [lia|done].
Qed.

End attempts_facts.

(** ** The three stages *)

Lemma decode_search_spec b w :
  exists o prints,
    decode_search b w = (o, log w prints) /\ quiet prints /\
    o <> Exited /\ o <> Ret Continue /\
    (undecodable b = true <-> o = Raise RequestException).
Proof.
  unfold decode_search, response_json, undecodable.
  destruct (json_of b) as [j|]; run_M.
  - destruct j as [| | | | |fields]; simpl;
      try (exists (Raise AttributeError), []; rewrite log_nil; by repeat split).
    destruct (default (JObj []) (Py.lookup "esearchresult" fields))
      as [| | | | |result]; simpl;
      try (exists (Raise AttributeError), []; rewrite log_nil; by repeat split).
    destruct (Py.truthy (default (JArr []) (Py.lookup "idlist" result))); simpl;
      eexists _, _; (split; [reflexivity|]); by repeat split.
  - exists (Raise RequestException), []. rewrite log_nil. by repeat split.
Qed.

Lemma decode_summary_spec b w :
  exists o prints,
    decode_summary b w = (o, log w prints) /\ quiet prints /\
    o <> Exited /\ o <> Ret Continue /\
    (undecodable b = true <-> o = Raise RequestException).
Proof.
  unfold decode_summary, response_json, undecodable.
  destruct (json_of b) as [j|]; run_M.
  - destruct j; simpl; eexists _, []; rewrite log_nil; by repeat split.
  - exists (Raise RequestException), []. rewrite log_nil. by repeat split.
Qed.

Lemma decode_fetch_spec b w :
  exists o prints,
    decode_fetch b w = (o, log w prints) /\ quiet prints /\
    o <> Exited /\ o <> Ret Continue /\
    (false = true <-> o = Raise RequestException).
Proof.
  unfold decode_fetch. run_M. eexists _, []. rewrite log_nil. by repeat split.
Qed.

Lemma bind_run {A B} (m : M A) (f : A -> M B) w :
  (m ≫= f) w =
  match m w with
  | (Ret a, w') => f a w'
  | (Raise e, w') => (Raise e, w')
  | (Exited, w') => (Exited, w')
  end.
Proof. reflexivity. Qed.

Lemma print_run {A} (m : message) (k : M A) w :
  (print m;; k) w = k (log w [Print m]).
Proof. reflexivity. Qed.

Lemma fetch_papers_unfold query max_retries delay :
  fetch_papers query max_retries delay =
  (r ← for_attempts (seq 0 max_retries)
         (round (fun attempt => FetchingPapers query (attempt + 1))
            ErrorFetchingPapers FailedPapers (Esearch query 5) (JArr [])
            max_retries delay decode_search);
   mret (default JNull r)).
Proof. reflexivity. Qed.

Lemma get_author_affiliations_unfold paper_id max_retries delay :
  get_author_affiliations paper_id max_retries delay =
  for_attempts (seq 0 max_retries)
    (round (fun attempt => FetchingAuthors paper_id (attempt + 1))
       (ErrorFetchingAuthors paper_id) FailedAuthors (Efetch paper_id) ([], [])
       max_retries delay decode_fetch).
Proof. reflexivity. Qed.

Lemma for_attempts_ext {A} (f g : nat -> M (flow A)) attempts w :
  (forall attempt w, f attempt w = g attempt w) ->
  for_attempts attempts f w = for_attempts attempts g w.
Proof.
  intros Hfg. revert w. induction attempts as [|a rest IH]; intros w; [done|].
  cbn [for_attempts]. unfold mbind, M_bind. rewrite Hfg.
  destruct (g a w) as [[[|v]|e|] w']; by try done.
Qed.

Lemma str_items_len paper_ids items :
  Py.str_items paper_ids = Some items -> Py.len paper_ids = Some (length items).
Proof.
  destruct paper_ids as [| | |s|l|fields]; simpl; try done.
  - intros [= <-]. f_equal. induction s as [|c s IH]; simpl; [done|]. by rewrite IH.
  - intros H. f_equal. by eapply length_mapM.
  - intros [= <-]. by rewrite length_map.
Qed.

Lemma get_paper_details_unfold paper_ids items max_retries delay w :
  Py.str_items paper_ids = Some items ->
  get_paper_details paper_ids max_retries delay w =
  (r ← for_attempts (seq 0 max_retries)
         (round (fun attempt => FetchingDetails (length items) (attempt + 1))
            ErrorFetchingDetails FailedDetails (Esummary (PyStr.join "," items)) (JObj [])
            max_retries delay decode_summary);
   mret (default JNull r)) w.
Proof.
  intros Hitems. unfold get_paper_details. rewrite Hitems.
  rewrite !bind_run. change (or_type_error (Some items) w) with (Ret items, w).
  cbv iota beta. erewrite for_attempts_ext; [reflexivity|].
  intros attempt w0. unfold round. rewrite (str_items_len _ _ Hitems). reflexivity.
Qed.

Lemma retries_map {A B} (f : A -> B) r failure empty max_retries delay events o :
  retries r failure empty max_retries delay events o ->
  retries r failure (f empty) max_retries delay events (outcome_map f o).
Proof.
  intros (Hwire & Hlen & Hex & Hreq & Hall). repeat split; try done.
  - by destruct o.
  - destruct o as [a|e|]; try done. simpl. intros [= ->]. by apply Hreq.
  - by destruct (Hall H H0) as [-> _].
  - by destruct (Hall H H0) as [_ ->].
Qed.

Lemma bind_ret_run {A B} (m : M A) (f : A -> B) w o w' :
  m w = (o, w') -> (a ← m; mret (f a)) w = (outcome_map f o, w').
Proof. intros H. rewrite bind_run, H. by destruct o. Qed.

Lemma fetch_papers_retries query max_retries delay w :
  exists events o,
    fetch_papers query max_retries delay w = (o, log w events) /\
    retries (Esearch query 5) json_failure (JArr []) max_retries delay events o.
Proof.
  destruct (attempts_retries (fun attempt => FetchingPapers query (attempt + 1))
              ErrorFetchingPapers FailedPapers (Esearch query 5) (JArr [])
              max_retries delay decode_search undecodable decode_search_spec w)
    as (events & o & Hrun & Hretries & _).
  exists events, (outcome_map (default JNull) o). split.
  - rewrite fetch_papers_unfold. by apply bind_ret_run.
  - by apply (retries_map (default JNull)) in Hretries.
Qed.

Lemma get_paper_details_retries paper_ids max_retries delay w :
  exists events o,
    get_paper_details paper_ids max_retries delay w = (o, log w events) /\
    retries (Esummary (PyStr.join "," (default [] (Py.str_items paper_ids))))
      json_failure (JObj []) max_retries delay events o.
Proof.
  destruct (Py.str_items paper_ids) as [items|] eqn:Hitems.
  - destruct (attempts_retries (fun attempt => FetchingDetails (length items) (attempt + 1))
                ErrorFetchingDetails FailedDetails (Esummary (PyStr.join "," items)) (JObj [])
                max_retries delay decode_summary undecodable decode_summary_spec w)
      as (events & o & Hrun & Hretries & _).
    exists events, (outcome_map (default JNull) o). split.
    + rewrite (get_paper_details_unfold _ _ _ _ _ Hitems). by apply bind_ret_run.
    + by apply (retries_map (default JNull)) in Hretries.
  - exists [], (Raise TypeError). split.
    + unfold get_paper_details. rewrite bind_run, Hitems. by rewrite log_nil.
    + unfold retries. simpl. repeat split; try done; lia.
Qed.

Lemma get_author_affiliations_retries paper_id max_retries delay w :
  exists events o,
    get_author_affiliations paper_id max_retries delay w = (o, log w events) /\
    retries (Efetch paper_id) xml_failure (Some ([], [])) max_retries delay events o /\
    (0 < max_retries -> o <> Ret None).
Proof.
  rewrite get_author_affiliations_unfold.
  apply (attempts_retries (fun attempt => FetchingAuthors paper_id (attempt + 1))
           (ErrorFetchingAuthors paper_id) FailedAuthors (Efetch paper_id) ([], [])
           max_retries delay decode_fetch (fun _ => false)).
  apply decode_fetch_spec.
Qed.

(** C3. Called with max_retries=3, each stage issues at most three requests,
    with a pause of [delay] between two consecutive ones and nothing else on
    the wire; it never ends by a RequestException; and when every attempt
    made has failed, three were made and the stage returns its empty result:
    the empty list, the empty mapping, a pair of empty lists. *)
Theorem three_attempts_then_empty_result :
  forall (delay : nat) (w : world),
    (forall query, exists events o,
       fetch_papers query 3 delay w = (o, log w events) /\
       retries (Esearch query 5) json_failure (JArr []) 3 delay events o) /\
    (forall paper_ids, exists events o,
       get_paper_details paper_ids 3 delay w = (o, log w events) /\
       retries (Esummary (PyStr.join "," (default [] (Py.str_items paper_ids))))
         json_failure (JObj []) 3 delay events o) /\
    (forall paper_id, exists events o,
       get_author_affiliations paper_id 3 delay w = (o, log w events) /\
       retries (Efetch paper_id) xml_failure (Some ([], [])) 3 delay events o).
Proof.
  intros delay w. split; [|split].
  - intros query. apply fetch_papers_retries.
  - intros paper_ids. apply get_paper_details_retries.
  - intros paper_id.
    destruct (get_author_affiliations_retries paper_id 3 delay w) as (events & o & H1 & H2 & _).
    by exists events, o.
Qed.

Lemma three_attempts_then_empty_result_witness :
  fst (fetch_papers "cancer" 3 5 offline) = Ret (JArr []) /\
  fst (get_paper_details (JArr [JStr "1"; JStr "2"]) 3 5 offline) = Ret (JObj []) /\
  fst (get_author_affiliations "1" 3 5 offline) = Ret (Some ([], [])).
Proof.
  destruct (three_attempts_then_empty_result 5 offline) as (Hsearch & Hsummary & Hfetch).
  split; [|split].
  - destruct (Hsearch "cancer") as (events & o & Hrun & _ & _ & _ & _ & Hall).
    rewrite Hrun. vm_compute in Hrun. injection Hrun as Ho Hev. subst events.
    apply Hall; [discriminate|reflexivity].
  - destruct (Hsummary (JArr [JStr "1"; JStr "2"])) as (events & o & Hrun & _ & _ & _ & _ & Hall).
    rewrite Hrun. vm_compute in Hrun. injection Hrun as Ho Hev. subst events.
    apply Hall; [discriminate|reflexivity].
  - destruct (Hfetch "1") as (events & o & Hrun & _ & _ & _ & _ & Hall).
    rewrite Hrun. vm_compute in Hrun. injection Hrun as Ho Hev. subst events.
    apply Hall; [discriminate|reflexivity].
Defined.

(** ** Authors and affiliations *)

Lemma extract_author_lengths acc author :
  length (extract_author acc author).1 = S (length acc.1) /\
  length (extract_author acc author).2 <= S (length acc.2).
Proof.
  destruct acc as [authors affiliations]. unfold extract_author.
  destruct (Soup.find_next "Affiliation" author); simpl;
    rewrite ?length_app; simpl; lia.
Qed.

Lemma fold_extract_author_lengths tags : forall acc,
  length (fold_left extract_author tags acc).1 = length acc.1 + length tags /\
  length (fold_left extract_author tags acc).2 <= length acc.2 + length tags.
Proof.
  induction tags as [|t tags IH]; intros acc; simpl; [lia|].
  destruct (IH (extract_author acc t)) as [H1 H2].
  destruct (extract_author_lengths acc t) as [H3 H4]. lia.
Qed.

Lemma extract_authors_lengths soup :
  length (extract_authors soup).1 = length (Soup.find_all "Author" soup) /\
  length (extract_authors soup).2 <= length (extract_authors soup).1.
Proof.
  unfold extract_authors.
  destruct (fold_extract_author_lengths (Soup.find_all "Author" soup) ([], [])) as [H1 H2].
  simpl in *. lia.
Qed.

(** What holds of every round of a retry loop holds of the loop. *)
Lemma for_attempts_inv {A} (inv : world -> Prop) (P : outcome (option A) -> Prop)
    (round : nat -> M (flow A)) attempts :
  (forall a w, inv w ->
     inv (round a w).2 /\
     match (round a w).1 with
     | Ret Continue => True
     | Ret (Return v) => P (Ret (Some v))
     | Raise e => P (Raise e)
     | Exited => P Exited
     end) ->
  P (Ret None) ->
  forall w, inv w ->
    inv (for_attempts attempts round w).2 /\ P (for_attempts attempts round w).1.
Proof.
  intros Hround Hnone. induction attempts as [|a rest IH]; intros w Hw; [done|].
  cbn [for_attempts]. rewrite bind_run.
  destruct (Hround a w Hw) as [Hinv HP].
  destruct (round a w) as [[[|v]|e|] w0]; try done. by apply IH.
Qed.

Lemma for_attempts_returns {A} (P : A -> Prop) (round : nat -> M (flow A)) attempts :
  (forall a w v w', round a w = (Ret (Return v), w') -> P v) ->
  forall w v w', for_attempts attempts round w = (Ret (Some v), w') -> P v.
Proof.
  intros Hround w v w' Hrun.
  destruct (for_attempts_inv (fun _ => True)
              (fun o => match o with Ret (Some v) => P v | _ => True end)
              round attempts) with (w := w) as [_ H]; try done.
  - intros a w0 _. split; [done|].
    destruct (round a w0) as [[[|v0]|e|] w1] eqn:Hr; try done. by eapply Hround.
  - by rewrite Hrun in H.
Qed.

Lemma get_author_affiliations_returns paper_id max_retries delay w authors affiliations w' :
  get_author_affiliations paper_id max_retries delay w
    = (Ret (Some (authors, affiliations)), w') ->
  (authors, affiliations) = ([], []) \/
  exists soup, (authors, affiliations) = extract_authors soup.
Proof.
  apply (for_attempts_returns
           (fun v => v = ([], []) \/ exists soup, v = extract_authors soup)).
  clear. intros a w v w'. unfold try_except, requests_get, on_request_exception. run_M.
  destruct (network w _ _) as [| |b]; simpl;
    destruct (a <? max_retries - 1); simpl; intros [= <- <-]; eauto.
Qed.

(** C9. The affiliations are never more than the authors: on every document
    the loop gives one name per Author element and at most one affiliation
    per Author element, the name being empty when the element has neither
    LastName nor ForeName; so it is for whatever the stage returns. *)
Theorem affiliations_no_longer_than_authors :
  (forall soup : list node,
     length (extract_authors soup).1 = length (Soup.find_all "Author" soup) /\
     length (extract_authors soup).2 <= length (extract_authors soup).1) /\
  (forall author : Soup.tag,
     Soup.find "LastName" author = None -> Soup.find "ForeName" author = None ->
     author_name author = "") /\
  (forall paper_id max_retries delay w authors affiliations w',
     get_author_affiliations paper_id max_retries delay w
       = (Ret (Some (authors, affiliations)), w') ->
     length affiliations <= length authors).
Proof.
  split; [apply extract_authors_lengths|]. split.
  - intros author Hlast Hfore. unfold author_name. by rewrite Hlast, Hfore.
  - intros paper_id max_retries delay w authors affiliations w' Hrun.
    apply get_author_affiliations_returns in Hrun as [[= -> ->]|[soup Hsoup]]; [done|].
    destruct (extract_authors_lengths soup) as [_ Hle].
    by rewrite <- Hsoup in Hle.
Qed.

Lemma affiliations_no_longer_than_authors_witness :
  extract_authors two_authors = (["John Smith"; ""], ["Pfizer Inc., USA"]) /\
  author_name {| Soup.here := Elem "Author" [Elem "CollectiveName" [Text "The Consortium"]];
                 Soup.next_elements := [] |} = "" /\
  length ["Pfizer Inc., USA"] <= length ["John Smith"; ""].
Proof.
  destruct affiliations_no_longer_than_authors as (_ & Hname & Hstage).
  split; [reflexivity|]. split.
  - by apply Hname.
  - apply (Hstage "1" 3 5 (serving {| json_of := None; xml_of := two_authors |})
             ["John Smith"; ""] ["Pfizer Inc., USA"]
             (log (serving {| json_of := None; xml_of := two_authors |})
                [Print (FetchingAuthors "1" 1);
                 Get (Efetch "1") (Success {| json_of := None; xml_of := two_authors |})])).
    reflexivity.
Defined.

(** ** The loop over the papers *)

Lemma Forall_of_wire (Q : event -> Prop) events :
  (forall m, Q (Print m)) -> Forall Q (wire events) -> Forall Q events.
Proof.
  intros Hprint. induction events as [|e events IH]; [done|].
  destruct e; simpl; intros H; try (inversion H; subst); constructor; auto.
Qed.

Lemma retry_wire_on_wire (allowed : request -> Prop) r delay answers :
  allowed r -> Forall (on_wire allowed) (retry_wire r delay answers).
Proof.
  intros Hr. induction answers as [|a [|a' rest] IH]; simpl; by repeat constructor.
Qed.

Lemma retries_on_wire {A} (allowed : request -> Prop) r failure (empty : A)
    max_retries delay events o :
  allowed r ->
  retries r failure empty max_retries delay events o ->
  Forall (on_wire allowed) events.
Proof.
  intros Hr (Hwire & _). apply Forall_of_wire; [done|].
  rewrite Hwire. by apply retry_wire_on_wire.
Qed.


Lemma paper_step_raise paper_data filtered paper_id w e :
  e <> RequestException -> paper_step paper_data filtered paper_id w [] (Raise e).
Proof. intros He. repeat split; try done. intros [= ->]. done. Qed.

Lemma paper_step_skip paper_data filtered paper_id w events :
  Forall (on_wire (fetch_of paper_data [paper_id])) events ->
  paper_step paper_data filtered paper_id w events (Ret filtered).
Proof. intros He. repeat split; try done. intros rows [= ->]. by left. Qed.

Lemma process_paper_spec paper_data filtered paper_id w :
  exists events o,
    process_paper paper_data filtered paper_id w = (o, log w events) /\
    paper_step paper_data filtered paper_id w events o.
Proof.
  unfold process_paper. rewrite bind_run.
  destruct (Py.contains paper_id paper_data) as [e|[|]] eqn:Hin; simpl.
  { exists [], (Raise e). rewrite log_nil. split; [done|].
    apply paper_step_raise. by destruct paper_data; simpl in Hin; simplify_eq. }
  2:{ exists [], (Ret filtered). rewrite log_nil. split; [done|]. by apply paper_step_skip. }
  rewrite bind_run.
  destruct (Py.getitem paper_data paper_id) as [e|entry] eqn:Hentry; simpl.
  { exists [], (Raise e). rewrite log_nil. split; [done|].
    apply paper_step_raise. destruct paper_data; simpl in Hentry; simplify_eq; try done.
    destruct (Py.lookup paper_id fields); by simplify_eq. }
  rewrite bind_run.
  destruct (Py.get entry "title" (JStr "No Title Available")) as [e|title] eqn:Htitle; simpl.
  { exists [], (Raise e). rewrite log_nil. split; [done|].
    apply paper_step_raise. destruct entry; simpl in Htitle; by simplify_eq. }
  rewrite bind_run. simpl. rewrite bind_run.
  destruct (Py.get entry "pubdate" (JStr "No Date Available")) as [e|pub_date] eqn:Hdate; simpl.
  { destruct entry; simpl in Htitle, Hdate; by simplify_eq. }
  rewrite bind_run.
  destruct (get_author_affiliations_retries paper_id 3 5 w)
    as (events & o & Hrun & Hretries & Hnone).
  rewrite Hrun.
  assert (Forall (on_wire (fetch_of paper_data [paper_id])) events) as Hwire.
  { eapply retries_on_wire; [|exact Hretries].
    exists paper_id. split; [done|]. split; [apply list_elem_of_singleton; done|done]. }
  destruct Hretries as (_ & _ & Hex & Hreq & _).
  exists events.
  destruct o as [[[authors affiliations]|]|e|]; [| |exists (Raise e)|done].
  - run_M. destruct (is_non_academic_affiliation affiliations) eqn:Hclass.
    + eexists. split; [reflexivity|]. repeat split; try done.
      intros rows [= <-]. right. eexists. split; [reflexivity|]. split; [done|].
      exists entry, authors, affiliations, [], events, []. simpl.
      rewrite log_nil, !app_nil_r. by repeat split.
    + exists (Ret filtered). split; [done|]. by apply paper_step_skip.
  - exfalso. apply Hnone; [lia|done].
  - split; [done|]. repeat split; try done.
    intros [= ->]. by apply Hreq.
Qed.

Lemma row_from_before paper_data w events w' r :
  row_from paper_data (log w events) w' r -> row_from paper_data w w' r.
Proof.
  intros (entry & authors & affiliations & before & during & after & H).
  destruct H as (? & ? & ? & ? & Hrun & Htrace & ? & ? & ?).
  exists entry, authors, affiliations, (events ++ before), during, after.
  rewrite !log_log in Hrun. rewrite (app_assoc events before during) in Hrun.
  repeat split; try done. rewrite Htrace. simpl. by rewrite <- !app_assoc.
Qed.

Lemma row_from_after paper_data w w' w'' events r :
  trace w'' = trace w' ++ events ->
  row_from paper_data w w' r -> row_from paper_data w w'' r.
Proof.
  intros Hlater (entry & authors & affiliations & before & during & after & H).
  destruct H as (? & ? & ? & ? & Hrun & Htrace & ? & ? & ?).
  exists entry, authors, affiliations, before, during, (after ++ events).
  repeat split; try done. rewrite Hlater, Htrace. by rewrite <- !app_assoc.
Qed.

Lemma fetch_of_weaken paper_data ids ids' events :
  (forall id, id ∈ ids -> id ∈ ids') ->
  Forall (on_wire (fetch_of paper_data ids)) events ->
  Forall (on_wire (fetch_of paper_data ids')) events.
Proof.
  intros Hsub H. eapply Forall_impl; [exact H|]. intros [r a| | |]; simpl; try done.
  intros (id & -> & Hin & Hc). exists id. auto.
Qed.

Lemma for_each_paper_spec paper_data ids : forall filtered w,
  exists events o,
    for_each_paper paper_data ids filtered w = (o, log w events) /\
    papers_loop paper_data filtered ids w events o.
Proof.
  induction ids as [|paper_id rest IH]; intros filtered w.
  - exists [], (Ret filtered). rewrite log_nil. split; [done|].
    repeat split; try done. intros rows [= <-]. exists []. by rewrite app_nil_r.
  - cbn [for_each_paper]. rewrite bind_run.
    destruct (process_paper_spec paper_data filtered paper_id w)
      as (ev1 & o1 & -> & Hwire1 & Hex1 & Hreq1 & Hrows1).
    apply (fetch_of_weaken _ _ (paper_id :: rest)) in Hwire1;
      [|intros id ->%list_elem_of_singleton; left].
    destruct o1 as [rows1|e|]; [|exists ev1, (Raise e)|done].
    2:{ split; [done|]. repeat split; try done. }
    destruct (IH rows1 (log w ev1)) as (ev2 & o & -> & Hwire2 & Hex & Hreq & Hrows).
    apply (fetch_of_weaken _ _ (paper_id :: rest)) in Hwire2; [|intros id ?; by right].
    exists (ev1 ++ ev2), o. rewrite log_log. split; [done|].
    split; [by apply Forall_app|]. do 2 (split; [done|]).
    intros rows ->. destruct (Hrows rows eq_refl) as (new2 & -> & Hsub & Hfrom).
    rewrite log_log in Hfrom.
    assert (Forall (row_from paper_data w (log w (ev1 ++ ev2))) new2) as Hfrom2.
    { eapply Forall_impl; [exact Hfrom|]. intros r. apply row_from_before. }
    destruct (Hrows1 rows1 eq_refl) as [->|(r & -> & Hid & Hr)].
    + exists new2. split; [done|]. split; [by apply sublist_cons|done].
    + exists (r :: new2). rewrite <- app_assoc. split; [done|]. split.
      * simpl. rewrite Hid. by apply sublist_skip.
      * constructor; [|done]. apply (row_from_after _ _ (log w ev1) _ ev2); [|done].
        simpl. by rewrite app_assoc.
Qed.

(** ** The script *)

(** The script, stage by stage. *)
Lemma main_unfold line w :
  main line w =
  match fetch_papers (PyStr.strip line) 3 5 (started line w) with
  | (Ret paper_ids, w1) =>
      if Py.truthy paper_ids then
        match get_paper_details paper_ids 3 5 w1 with
        | (Ret paper_data, w2) =>
            if Py.truthy paper_data then
              match Py.str_items paper_ids with
              | Some ids =>
                  match for_each_paper paper_data ids [] w2 with
                  | (Ret [], w3) => (Ret [], log w3 [Print NoNonAcademicPapers])
                  | (Ret rows, w3) => (Ret rows, saved rows w3)
                  | (Raise e, w3) => (Raise e, w3)
                  | (Exited, w3) => (Exited, w3)
                  end
              | None => (Raise TypeError, w2)
              end
            else (Exited, log w2 [Print NoDetailsFetched])
        | (Raise e, w2) => (Raise e, w2)
        | (Exited, w2) => (Exited, w2)
        end
      else (Exited, log w1 [Print NoPapersFound])
  | (Raise e, w1) => (Raise e, w1)
  | (Exited, w1) => (Exited, w1)
  end.
Proof.
  unfold main, started. rewrite !print_run, log_log.
  change ([Print ScriptStarted] ++ [Print (QueryReceived (PyStr.strip line))])
    with [Print ScriptStarted; Print (QueryReceived (PyStr.strip line))].
  rewrite bind_run.
  destruct (fetch_papers _ 3 5 _) as [[paper_ids|e|] w1]; try done.
  destruct (Py.truthy paper_ids); simpl; [|done].
  rewrite bind_run.
  destruct (get_paper_details paper_ids 3 5 w1) as [[paper_data|e|] w2]; try done.
  destruct (Py.truthy paper_data); simpl; [|done].
  rewrite bind_run.
  destruct (Py.str_items paper_ids) as [ids|]; simpl; [|done].
  rewrite bind_run.
  destruct (for_each_paper paper_data ids [] w2) as [[[|r rows]|e|] w3]; try done.
Qed.

(** ** Replies of the documented shape *)









(** The iteration of line 126 cannot fail: the summary stage has joined the
    same items. *)
Lemma get_paper_details_returns_items paper_ids max_retries delay w v w' :
  get_paper_details paper_ids max_retries delay w = (Ret v, w') ->
  is_Some (Py.str_items paper_ids).
Proof.
  unfold get_paper_details. rewrite bind_run.
  by destruct (Py.str_items paper_ids).
Qed.

Lemma main_returns line w rows w' :
  main line w = (Ret rows, w') ->
  exists paper_ids paper_data ids w1 w2 w3,
    fetch_papers (PyStr.strip line) 3 5 (started line w) = (Ret paper_ids, w1) /\
    get_paper_details paper_ids 3 5 w1 = (Ret paper_data, w2) /\
    Py.str_items paper_ids = Some ids /\
    for_each_paper paper_data ids [] w2 = (Ret rows, w3) /\
    w' = match rows with
         | [] => log w3 [Print NoNonAcademicPapers]
         | _ => saved rows w3
         end.
Proof.
  rewrite main_unfold.
  destruct (fetch_papers _ 3 5 _) as [[paper_ids|e|] w1]; try done.
  destruct (Py.truthy paper_ids); [|done].
  destruct (get_paper_details paper_ids 3 5 w1) as [[paper_data|e|] w2] eqn:Hsummary;
    try done.
  destruct (Py.truthy paper_data); [|done].
  destruct (Py.str_items paper_ids) as [ids|] eqn:Hids; [|done].
  destruct (for_each_paper paper_data ids [] w2) as [[[|r rows0]|e|] w3] eqn:Hloop; try done.
  - intros [= <- <-]. by exists paper_ids, paper_data, ids, w1, w2, w3.
  - intros [= <- <-]. by exists paper_ids, paper_data, ids, w1, w2, w3.
Qed.

(** C2. When the script ends with rows, they are the records of the file it
    wrote; their identifiers are, in order, among those the search stage
    returned; each row's identifier is in the summary mapping, its authors
    and affiliations are those the efetch stage returned for that identifier,
    joined with "; ", and it is there because those affiliations passed the
    classifier. *)
Theorem exported_rows_follow_search_and_summary :
  forall (line : string) (w : world) (rows : list row) (w' : world),
    main line w = (Ret rows, w') ->
    exists paper_ids paper_data ids w1 w2,
      fetch_papers (PyStr.strip line) 3 5 (started line w) = (Ret paper_ids, w1) /\
      get_paper_details paper_ids 3 5 w1 = (Ret paper_data, w2) /\
      Py.str_items paper_ids = Some ids /\
      (rows <> [] ->
       records <$> files w' !! "filtered_papers.csv" = Some rows) /\
      map Paper_ID rows `sublist_of` ids /\
      Forall (row_from paper_data w2 w') rows.
Proof.
  intros line w rows w' Hmain.
  apply main_returns in Hmain
    as (paper_ids & paper_data & ids & w1 & w2 & w3 & Hsearch & Hsummary & Hids & Hloop & ->).
  exists paper_ids, paper_data, ids, w1, w2. do 3 (split; [done|]).
  split.
  { destruct rows as [|r rows]; [done|]. intros _.
    unfold saved. rewrite files_log. cbn [files]. by rewrite lookup_insert_eq. }
  destruct (for_each_paper_spec paper_data ids [] w2)
    as (events & o & Hrun & _ & _ & _ & Hrows).
  rewrite Hloop in Hrun. injection Hrun as <- ->.
  destruct (Hrows rows eq_refl) as (new & Hnew & Hsub & Hfrom). simpl in Hnew. subst new.
  split; [done|].
  eapply Forall_impl; [exact Hfrom|]. intros r.
  destruct rows.
  - by apply (row_from_after _ _ _ _ [Print NoNonAcademicPapers]).
  - apply (row_from_after _ _ _ _ [WriteFile "filtered_papers.csv"; Print SavedToCsv]).
    unfold saved. simpl. by rewrite <- app_assoc.
Qed.

Lemma exported_rows_follow_search_and_summary_witness :
  exists paper_ids paper_data ids w1 w2,
    fetch_papers (PyStr.strip "cancer AND Pfizer") 3 5 (started "cancer AND Pfizer" one_paper)
      = (Ret paper_ids, w1) /\
    get_paper_details paper_ids 3 5 w1 = (Ret paper_data, w2) /\
    Py.str_items paper_ids = Some ids /\
    ([one_paper_row] <> [] ->
     records <$> files (main "cancer AND Pfizer" one_paper).2 !! "filtered_papers.csv"
     = Some [one_paper_row]) /\
    map Paper_ID [one_paper_row] `sublist_of` ids /\
    Forall (row_from paper_data w2 (main "cancer AND Pfizer" one_paper).2) [one_paper_row].
Proof.
  apply (exported_rows_follow_search_and_summary "cancer AND Pfizer" one_paper).
  vm_compute. reflexivity.
Defined.

Ltac no_write :=
  unfold no_file_written;
  repeat (apply Forall_app; split); try done; by repeat constructor.

Ltac quiet_end :=
  cbn [fst snd]; rewrite ?log_log; eexists;
  split; [by rewrite trace_log|]; rewrite ?files_log;
  split; [done|]; no_write.

Lemma main_events line w :
  exists events,
    trace (main line w).2 = trace w ++ events /\
    match (main line w).1 with
    | Ret [] =>
        files (main line w).2 = files w /\
        exists before,
          events = before ++ [Print NoNonAcademicPapers] /\
          no_file_written before
    | Ret rows =>
        files (main line w).2
          = <["filtered_papers.csv" := filtered_papers_csv rows]> (files w) /\
        exists before,
          events = before ++ [WriteFile "filtered_papers.csv"; Print SavedToCsv] /\
          no_file_written before
    | _ =>
        files (main line w).2 = files w /\ no_file_written events
    end.
Proof.
  rewrite main_unfold. unfold started.
  set (w0 := log w _).
  destruct (fetch_papers_retries (PyStr.strip line) 3 5 w0) as (ev1 & o1 & -> & H1).
  apply (retries_on_wire (fun _ => True)) in H1; [|done].
  subst w0. rewrite log_log.
  destruct o1 as [paper_ids|e|]; [|quiet_end|quiet_end].
  destruct (Py.truthy paper_ids); [|quiet_end].
  match goal with |- context [get_paper_details _ _ _ ?x] => set (w1 := x) end.
  destruct (get_paper_details_retries paper_ids 3 5 w1) as (ev2 & o2 & -> & H2).
  apply (retries_on_wire (fun _ => True)) in H2; [|done].
  subst w1. rewrite log_log.
  destruct o2 as [paper_data|e|]; [|quiet_end|quiet_end].
  destruct (Py.truthy paper_data); [|quiet_end].
  destruct (Py.str_items paper_ids) as [ids|]; [|quiet_end].
  match goal with |- context [for_each_paper _ _ _ ?x] => set (w2 := x) end.
  destruct (for_each_paper_spec paper_data ids [] w2) as (ev3 & o3 & -> & H3 & _).
  assert (Forall (on_wire (fun _ => True)) ev3) as H3'.
  { eapply Forall_impl; [exact H3|]. by intros []. }
  subst w2. rewrite log_log.
  destruct o3 as [[|r rows]|e|]; [| |quiet_end|quiet_end].
  - cbn [fst snd]. rewrite log_log. eexists. split; [by rewrite trace_log|].
    split; [done|]. eexists. split; [rewrite app_assoc; reflexivity|]. no_write.
  - cbn [fst snd]. unfold saved. eexists.
    split. { rewrite trace_log. cbn [trace]. rewrite !trace_log, <- !app_assoc. reflexivity. }
    split; [done|].
    exists ([Print ScriptStarted; Print (QueryReceived (PyStr.strip line))] ++ ev1 ++ ev2 ++ ev3).
    split; [by rewrite <- !app_assoc|]. no_write.
Qed.


(** C6. When the search stage returns nothing, the script exits having sent
    search requests only and written no file; when the summary stage returns
    nothing, it exits having sent no efetch request and written no file. *)
Theorem no_identifiers_no_further_requests :
  forall (line : string) (w : world),
    (forall paper_ids w1,
       fetch_papers (PyStr.strip line) 3 5 (started line w) = (Ret paper_ids, w1) ->
       Py.truthy paper_ids = false ->
       exists events,
         main line w = (Exited, log w events) /\
         files (log w events) = files w /\
         Forall (on_wire (fun r => exists term, r = Esearch term 5)) events) /\
    (forall paper_ids w1 paper_data w2,
       fetch_papers (PyStr.strip line) 3 5 (started line w) = (Ret paper_ids, w1) ->
       Py.truthy paper_ids = true ->
       get_paper_details paper_ids 3 5 w1 = (Ret paper_data, w2) ->
       Py.truthy paper_data = false ->
       exists events,
         main line w = (Exited, log w events) /\
         files (log w events) = files w /\
         Forall (on_wire (fun r => forall id, r <> Efetch id)) events).
Proof.
  intros line w. split.
  - intros paper_ids w1 Hsearch Hnone.
    destruct (fetch_papers_retries (PyStr.strip line) 3 5 (started line w))
      as (ev1 & o1 & Hrun & H1).
    rewrite Hsearch in Hrun. injection Hrun as <- ->.
    apply (retries_on_wire (fun r => exists term, r = Esearch term 5)) in H1; [|by eexists].
    rewrite main_unfold, Hsearch, Hnone. unfold started. rewrite !log_log.
    eexists. split; [done|]. split; [done|]. no_write.
  - intros paper_ids w1 paper_data w2 Hsearch Hsome Hsummary Hnone.
    destruct (fetch_papers_retries (PyStr.strip line) 3 5 (started line w))
      as (ev1 & o1 & Hrun & H1).
    rewrite Hsearch in Hrun. injection Hrun as <- ->.
    apply (retries_on_wire (fun r => forall id, r <> Efetch id)) in H1; [|done].
    destruct (get_paper_details_retries paper_ids 3 5 (log (started line w) ev1))
      as (ev2 & o2 & Hrun & H2).
    rewrite Hsummary in Hrun. injection Hrun as <- ->.
    apply (retries_on_wire (fun r => forall id, r <> Efetch id)) in H2; [|done].
    rewrite main_unfold, Hsearch, Hsome, Hsummary, Hnone. unfold started. rewrite !log_log.
    eexists. split; [done|]. split; [done|]. no_write.
Qed.

Lemma no_identifiers_no_further_requests_witness :
  (main " cancer " offline).1 = Exited /\
  (main "cancer" (answering (search_reply ["1"]) TransportError TransportError)).1 = Exited.
Proof.
  split.
  - destruct (no_identifiers_no_further_requests " cancer " offline) as [H _].
    edestruct H as (events & Hmain & _).
    + vm_compute. reflexivity.
    + reflexivity.
    + by rewrite Hmain.
  - destruct (no_identifiers_no_further_requests "cancer"
                (answering (search_reply ["1"]) TransportError TransportError)) as [_ H].
    edestruct H as (events & Hmain & _).
    + vm_compute. reflexivity.
    + reflexivity.
    + vm_compute. reflexivity.
    + reflexivity.
    + by rewrite Hmain.
Defined.




(** ** Exceptions *)







(** * Further properties *)

(** ** The discipline of the retry loop *)

Lemma total_sleep_wire events : total_sleep (wire events) = total_sleep events.
Proof.
  induction events as [|[] events IH]; simpl; try done. by rewrite IH.
Qed.

Lemma total_sleep_retry_wire r delay answers :
  total_sleep (retry_wire r delay answers) = (length answers - 1) * delay.
Proof.
  induction answers as [|a [|a' rest] IH]; try done.
  change (total_sleep (retry_wire r delay (a :: a' :: rest)))
    with (delay + total_sleep (retry_wire r delay (a' :: rest))).
  rewrite IH. simpl. lia.
Qed.

Lemma answers_of_app e1 e2 : answers_of (e1 ++ e2) = answers_of e1 ++ answers_of e2.
Proof. apply flat_map_app. Qed.

Lemma removelast_cons_ne {A} (a : A) l : l <> [] -> removelast (a :: l) = a :: removelast l.
Proof. by destruct l. Qed.

Section attempts_order.
Context {A : Type}.
Variable start : nat -> message.
Variables (error failed : message) (r : request) (empty : A).
Variables (max_retries delay : nat).
Variable decode : body -> M (flow A).
Variable bad : body -> bool.

Hypothesis decode_spec : forall b w,
  exists o prints, decode b w = (o, log w prints) /\ quiet prints /\
    o <> Exited /\ o <> Ret Continue /\
    (bad b = true <-> o = Raise RequestException).

(** The loop goes on to another attempt only after a failed one. *)
Lemma attempts_stop n : forall a w,
  a + n = max_retries ->
  exists events o,
    for_attempts (seq a n)
      (round start error failed r empty max_retries delay decode) w
      = (o, log w events) /\
    (0 < n -> answers_of events <> []) /\
    forallb (failing bad) (removelast (answers_of events)) = true.
Proof.
  induction n as [|n IH]; intros a w Hmax.
  - exists [], (Ret None). rewrite log_nil. repeat split; try done; lia.
  - cbn [seq for_attempts]. rewrite bind_run.
    destruct (round_spec start error failed r empty max_retries delay decode bad
                decode_spec a w) as (answer & ev1 & o1 & -> & Hex & Hreq & Hcase).
    assert (wire ev1 = [Get r answer] \/ wire ev1 = [Get r answer; Sleep delay] ->
            answers_of ev1 = [answer]) as Hone.
    { intros Hw. rewrite <- answers_of_wire. by destruct Hw as [-> | ->]. }
    destruct (failing bad answer) eqn:Hfail.
    + destruct (a <? max_retries - 1) eqn:Hlast.
      * destruct Hcase as [-> Hw1]. apply Nat.ltb_lt in Hlast.
        destruct (IH (S a) (log w ev1)) as (ev2 & o & -> & Hne & Hall); [lia|].
        exists (ev1 ++ ev2), o. rewrite log_log. split; [done|].
        rewrite answers_of_app, Hone by auto. cbn [app].
        split; [done|].
        rewrite removelast_cons_ne by (apply Hne; lia). simpl. by rewrite Hfail.
      * destruct Hcase as [-> Hw1].
        exists ev1, (Ret (Some empty)). split; [done|]. by rewrite Hone by auto.
    + destruct Hcase as [Hcont Hw1].
      destruct o1 as [[|v]|e|]; try done.
      * exists ev1, (Ret (Some v)). split; [done|]. by rewrite Hone by auto.
      * exists ev1, (Raise e). split; [done|]. by rewrite Hone by auto.
Qed.

End attempts_order.

(** X1. Whatever the number of attempts allowed, a stage makes a further
    attempt only after a failed one: of the answers its requests got, all
    but the last are failures. *)
Theorem no_retry_after_an_accepted_answer :
  forall (max_retries delay : nat) (w : world),
    (forall query, exists events o,
       fetch_papers query max_retries delay w = (o, log w events) /\
       forallb json_failure (removelast (answers_of events)) = true) /\
    (forall paper_ids, exists events o,
       get_paper_details paper_ids max_retries delay w = (o, log w events) /\
       forallb json_failure (removelast (answers_of events)) = true) /\
    (forall paper_id, exists events o,
       get_author_affiliations paper_id max_retries delay w = (o, log w events) /\
       forallb xml_failure (removelast (answers_of events)) = true).
Proof.
  intros max_retries delay w. split; [|split].
  - intros query.
    destruct (attempts_stop (fun attempt => FetchingPapers query (attempt + 1))
                ErrorFetchingPapers FailedPapers (Esearch query 5) (JArr [])
                max_retries delay decode_search undecodable decode_search_spec
                max_retries 0 w) as (events & o & Hrun & _ & Hall); [done|].
    exists events, (outcome_map (default JNull) o). split; [|done].
    rewrite fetch_papers_unfold. by apply bind_ret_run.
  - intros paper_ids. destruct (Py.str_items paper_ids) as [items|] eqn:Hitems.
    + destruct (attempts_stop (fun attempt => FetchingDetails (length items) (attempt + 1))
                  ErrorFetchingDetails FailedDetails (Esummary (PyStr.join "," items))
                  (JObj []) max_retries delay decode_summary undecodable
                  decode_summary_spec max_retries 0 w) as (events & o & Hrun & _ & Hall);
        [done|].
      exists events, (outcome_map (default JNull) o). split; [|done].
      rewrite (get_paper_details_unfold _ _ _ _ _ Hitems). by apply bind_ret_run.
    + exists [], (Raise TypeError). split; [|done].
      unfold get_paper_details. rewrite bind_run, Hitems. by rewrite log_nil.
  - intros paper_id.
    destruct (attempts_stop (fun attempt => FetchingAuthors paper_id (attempt + 1))
                (ErrorFetchingAuthors paper_id) FailedAuthors (Efetch paper_id) ([], [])
                max_retries delay decode_fetch (fun _ => false) decode_fetch_spec
                max_retries 0 w) as (events & o & Hrun & _ & Hall); [done|].
    exists events, o. split; [|done]. by rewrite get_author_affiliations_unfold.
Qed.

Lemma retries_pauses {A} r failure (empty : A) max_retries delay events o :
  retries r failure empty max_retries delay events o ->
  length (answers_of events) <= max_retries /\
  total_sleep events = (length (answers_of events) - 1) * delay /\
  total_sleep events <= (max_retries - 1) * delay.
Proof.
  intros (Hwire & Hlen & _). split; [done|].
  assert (total_sleep events = (length (answers_of events) - 1) * delay) as Heq.
  { by rewrite <- total_sleep_wire, Hwire, total_sleep_retry_wire. }
  split; [done|]. rewrite Heq. apply Nat.mul_le_mono_r. lia.
Qed.

(** X2. Whatever the number of attempts allowed, a stage sends at most that
    many requests and sleeps [delay] seconds once between two consecutive
    requests and at no other time: the time slept is one [delay] less than
    the requests sent, so at most [(max_retries - 1) * delay]. *)
Theorem pauses_only_between_attempts :
  forall (max_retries delay : nat) (w : world),
    (forall query, exists events o,
       fetch_papers query max_retries delay w = (o, log w events) /\
       length (answers_of events) <= max_retries /\
       total_sleep events = (length (answers_of events) - 1) * delay /\
       total_sleep events <= (max_retries - 1) * delay) /\
    (forall paper_ids, exists events o,
       get_paper_details paper_ids max_retries delay w = (o, log w events) /\
       length (answers_of events) <= max_retries /\
       total_sleep events = (length (answers_of events) - 1) * delay /\
       total_sleep events <= (max_retries - 1) * delay) /\
    (forall paper_id, exists events o,
       get_author_affiliations paper_id max_retries delay w = (o, log w events) /\
       length (answers_of events) <= max_retries /\
       total_sleep events = (length (answers_of events) - 1) * delay /\
       total_sleep events <= (max_retries - 1) * delay).
Proof.
  intros max_retries delay w. split; [|split].
  - intros query.
    destruct (fetch_papers_retries query max_retries delay w) as (events & o & Hrun & H).
    exists events, o. split; [done|]. by eapply retries_pauses.
  - intros paper_ids.
    destruct (get_paper_details_retries paper_ids max_retries delay w)
      as (events & o & Hrun & H).
    exists events, o. split; [done|]. by eapply retries_pauses.
  - intros paper_id.
    destruct (get_author_affiliations_retries paper_id max_retries delay w)
      as (events & o & Hrun & H & _).
    exists events, o. split; [done|]. by eapply retries_pauses.
Qed.

(** ** What the stages return and raise *)



Lemma get_author_affiliations_outcome paper_id max_retries delay w :
  match (get_author_affiliations paper_id max_retries delay w).1 with
  | Ret None => max_retries = 0
  | Ret (Some _) => 0 < max_retries
  | _ => False
  end.
Proof.
  destruct (get_author_affiliations_retries paper_id max_retries delay w)
    as (events & o & Hrun & _ & Hnone).
  destruct (for_attempts_inv (fun _ => True)
              (fun o : outcome (option (list string * list string)) =>
                 match o with Ret _ => True | _ => False end)
              (round (fun attempt => FetchingAuthors paper_id (attempt + 1))
                 (ErrorFetchingAuthors paper_id) FailedAuthors (Efetch paper_id) ([], [])
                 max_retries delay decode_fetch) (seq 0 max_retries)) with (w := w)
    as [_ HP]; try done.
  { intros a w0 _. split; [done|].
    unfold round, try_except, requests_get, on_request_exception, decode_fetch. run_M.
    destruct (network w0 _ _) as [| |b]; simpl; by destruct (a <? max_retries - 1). }
  rewrite get_author_affiliations_unfold in Hrun |- *. rewrite Hrun in HP |- *. simpl in *.
  destruct o as [[v|]|e|]; try done.
  - destruct max_retries; [discriminate Hrun|lia].
  - destruct max_retries; [done|]. exfalso. apply Hnone; [lia|done].
Qed.



(** X5. The efetch stage raises nothing and does not exit, whatever the
    network answers and whatever the document; it returns a pair of lists
    when at least one attempt is allowed, and None exactly when none is. *)
Theorem authors_stage_never_raises :
  forall (paper_id : string) (max_retries delay : nat) (w : world),
    match (get_author_affiliations paper_id max_retries delay w).1 with
    | Ret None => max_retries = 0
    | Ret (Some _) => 0 < max_retries
    | Raise _ => False
    | Exited => False
    end.
Proof.
  intros paper_id max_retries delay w.
  pose proof (get_author_affiliations_outcome paper_id max_retries delay w) as H.
  by destruct (get_author_affiliations paper_id max_retries delay w).1 as [[v|]|e|].
Qed.

(** ** What the script raises *)







(** ** The extraction of authors and affiliations *)

Lemma fold_extract_author tags : forall authors affiliations,
  fold_left extract_author tags (authors, affiliations)
  = (authors ++ map author_name tags, affiliations ++ omap affiliation_of tags).
Proof.
  induction tags as [|t tags IH]; intros authors affiliations.
  - simpl. by rewrite !app_nil_r.
  - assert (affiliation_of t = Soup.text <$> Soup.find_next "Affiliation" t) as Haff by done.
    cbn [fold_left map omap list_omap]. unfold extract_author at 2.
    destruct (Soup.find_next "Affiliation" t) as [a|]; simpl in Haff; rewrite Haff, IH;
      by rewrite <- !app_assoc.
Qed.

(** X7. The two lists the loop builds are, in document order of the Author
    elements, the name of every element and the text of the nearest
    following Affiliation element of those elements that have one. *)
Theorem extraction_follows_document_order :
  forall soup : list node,
    extract_authors soup
    = (map author_name (Soup.find_all "Author" soup),
       omap affiliation_of (Soup.find_all "Author" soup)).
Proof.
  intros soup. unfold extract_authors. by rewrite fold_extract_author.
Qed.

Lemma find_suffix {A} (f : A -> bool) (l1 l2 : list A) :
  l1 `suffix_of` l2 -> List.find f l2 = None -> List.find f l1 = None.
Proof.
  intros [k ->]. induction k as [|x k IH]; simpl; [done|].
  destruct (f x); [done|apply IH].
Qed.

(** The elements [find_all] returns come later and later in the document. *)
Lemma positions_later nodes :
  StronglySorted
    (fun t1 t2 => Soup.next_elements t2 `suffix_of` Soup.next_elements t1)
    (Soup.positions nodes).
Proof.
  assert (forall l t, t ∈ Soup.positions l -> Soup.next_elements t `suffix_of` l) as Hin.
  { induction l as [|n l IH]; simpl; intros t Ht; [by apply elem_of_nil in Ht|].
    apply elem_of_cons in Ht as [->|Ht]; simpl.
    - by apply suffix_cons_r.
    - by apply suffix_cons_r, IH. }
  induction nodes as [|n nodes IH]; simpl; constructor; [done|].
  apply Forall_forall. intros t Ht. simpl. by apply Hin.
Qed.

Lemma StronglySorted_filter_tags {A} (R : relation A) (P : A -> Prop)
    `{forall x, Decision (P x)} l :
  StronglySorted R l -> StronglySorted R (filter P l).
Proof.
  induction 1 as [|x l Hl IH Hx]; [constructor|].
  rewrite filter_cons. destruct (decide (P x)); [|done].
  constructor; [done|]. apply Forall_forall. intros y [_ Hy]%list_elem_of_filter.
  by eapply Forall_forall in Hx.
Qed.

Lemma find_all_later name soup :
  StronglySorted
    (fun t1 t2 => Soup.next_elements t2 `suffix_of` Soup.next_elements t1)
    (Soup.find_all name soup).
Proof. apply StronglySorted_filter_tags, positions_later. Qed.

Lemma affiliated_prefix tags :
  StronglySorted
    (fun t1 t2 => Soup.next_elements t2 `suffix_of` Soup.next_elements t1) tags ->
  Forall (fun t => is_Some (affiliation_of t)) (take (length (omap affiliation_of tags)) tags) /\
  Forall (fun t => affiliation_of t = None) (drop (length (omap affiliation_of tags)) tags).
Proof.
  induction 1 as [|t tags Htags IH Ht]; [done|].
  change (omap affiliation_of (t :: tags))
    with (match affiliation_of t with
          | Some y => y :: omap affiliation_of tags
          | None => omap affiliation_of tags
          end).
  destruct (affiliation_of t) as [a|] eqn:Ha.
  - destruct IH as [IH1 IH2]. cbn [length take drop]. split; [|done].
    constructor; [by rewrite Ha|done].
  - assert (Forall (fun t' => affiliation_of t' = None) tags) as Hnone.
    { eapply Forall_impl; [exact Ht|]. intros t' Hsuf. simpl in Hsuf.
      unfold affiliation_of in *.
      destruct (Soup.find_next "Affiliation" t) eqn:Hf; [done|].
      unfold Soup.find_next in *. by rewrite (find_suffix _ _ _ Hsuf Hf). }
    assert (omap affiliation_of tags = []) as ->.
    { clear -Hnone. induction Hnone as [|t' l Ht' _ IH]; simpl; [done|]. by rewrite Ht'. }
    simpl. split; [done|]. constructor; [done|exact Hnone].
Qed.

(** X8. The affiliations belong to the authors at the head of the list: if
    [k] affiliations are returned, each of the first [k] Author elements has
    a following Affiliation element and none of the others has; so an author
    has an affiliation as soon as a later one has. *)
Theorem affiliations_belong_to_first_authors :
  forall soup : list node,
    let tags := Soup.find_all "Author" soup in
    let k := length (extract_authors soup).2 in
    k <= length tags /\
    Forall (fun t => is_Some (Soup.find_next "Affiliation" t)) (take k tags) /\
    Forall (fun t => Soup.find_next "Affiliation" t = None) (drop k tags).
Proof.
  intros soup tags k. subst k.
  destruct (extract_authors_lengths soup) as [Hlen Hle].
  split; [subst tags; lia|].
  unfold extract_authors. rewrite fold_extract_author. simpl.
  destruct (affiliated_prefix tags (find_all_later "Author" soup)) as [H1 H2].
  split.
  - eapply Forall_impl; [exact H1|]. intros t [x Hx]. unfold affiliation_of in Hx.
    destruct (Soup.find_next "Affiliation" t); [by eexists|done].
  - eapply Forall_impl; [exact H2|]. intros t. unfold affiliation_of.
    by destruct (Soup.find_next "Affiliation" t).
Qed.

(** ** The classifier and the joined column *)

Lemma string_app_assoc (a b c : string) : (a +:+ b) +:+ c = a +:+ b +:+ c.
Proof. induction a as [|x a IH]; [done|]. rewrite !app_cons. by rewrite IH. Qed.

Lemma lower_app (s t : string) : PyStr.lower (s +:+ t) = PyStr.lower s +:+ PyStr.lower t.
Proof. induction s as [|c s IH]; [done|]. rewrite app_cons. simpl. by rewrite IH, app_cons. Qed.

Lemma contains_extend kw (x s y : string) :
  PyStr.contains kw s = true -> PyStr.contains kw (x +:+ s +:+ y) = true.
Proof.
  rewrite !contains_spec. intros (pre & post & ->).
  exists (x +:+ pre), (post +:+ y). by rewrite !string_app_assoc.
Qed.

Lemma mentions_keyword_extend (x a y : string) :
  mentions_keyword a = true -> mentions_keyword (x +:+ a +:+ y) = true.
Proof.
  unfold mentions_keyword. rewrite !existsb_exists. intros (kw & Hin & Hkw).
  exists kw. split; [done|]. rewrite !lower_app. by apply contains_extend.
Qed.

(** X9. Substring matching is blind to what surrounds a match: text added
    before or after an affiliation never turns a positive answer into a
    negative one. *)
Theorem classify_survives_surrounding_text :
  forall (affiliations : list string) (x a y : string),
    is_non_academic_affiliation (a :: affiliations) = true ->
    is_non_academic_affiliation ((x +:+ a +:+ y) :: affiliations) = true.
Proof.
  intros affiliations x a y. rewrite !classify_unfold. cbn [existsb].
  intros [Ha|Hrest]%orb_true_iff; apply orb_true_iff; [left|by right].
  by apply mentions_keyword_extend.
Qed.

Lemma classify_survives_surrounding_text_witness :
  is_non_academic_affiliation ["ltd"] = true /\
  is_non_academic_affiliation ["Append" +:+ "ltd" +:+ "ed University"] = true.
Proof.
  split; [reflexivity|].
  by apply (classify_survives_surrounding_text [] "Append" "ltd" "ed University").
Defined.

Lemma prefix_before_char kw a c t :
  has_char c kw = false ->
  String.prefix kw (a +:+ String c t) = true -> String.prefix kw a = true.
Proof.
  revert kw. induction a as [|x a IH]; intros kw Hfree.
  - destruct kw as [|d kw]; [done|]. simpl in *.
    apply orb_false_iff in Hfree as [Hcd _].
    destruct (ascii_dec d c) as [->|Hne]; [|done].
    by rewrite Ascii.eqb_refl in Hcd.
  - destruct kw as [|d kw]; [done|]. rewrite app_cons. simpl in *.
    apply orb_false_iff in Hfree as [_ Hfree].
    destruct (ascii_dec d x); [|done]. by apply IH.
Qed.

Lemma contains_nil kw : PyStr.contains kw "" = true -> kw = "".
Proof. by destruct kw. Qed.

Lemma contains_empty s : PyStr.contains "" s = true.
Proof. by destruct s. Qed.

(** A match in [a ++ c ++ t] that does not use [c] lies in [a] or in [t]. *)
Lemma contains_around_char kw a c t :
  has_char c kw = false ->
  PyStr.contains kw (a +:+ String c t) = true ->
  PyStr.contains kw a = true \/ PyStr.contains kw t = true.
Proof.
  intros Hfree. induction a as [|x a IH].
  - change ("" +:+ String c t) with (String c t). cbn [PyStr.contains].
    intros [Hp|Ht]%orb_true_iff; [|by right].
    left. apply (prefix_before_char kw "" c t Hfree) in Hp.
    destruct kw; [done|discriminate Hp].
  - rewrite app_cons. cbn [PyStr.contains].
    intros [Hp|Hrest]%orb_true_iff.
    + left. apply orb_true_iff. left.
      by apply (prefix_before_char kw (String x a) c t Hfree).
    + destruct (IH Hrest) as [Ha|Ht]; [|by right].
      left. apply orb_true_iff. by right.
Qed.

Lemma join_cons2 sep (a b : string) rest :
  PyStr.join sep (a :: b :: rest) = a +:+ sep +:+ PyStr.join sep (b :: rest).
Proof. reflexivity. Qed.

Lemma lower_join l :
  PyStr.lower (PyStr.join "; " l) = PyStr.join "; " (map PyStr.lower l).
Proof.
  induction l as [|a [|b rest] IH]; [done|done|].
  rewrite join_cons2, !lower_app, IH. done.
Qed.

Lemma contains_join kw l :
  kw <> "" -> has_char ";" kw = false -> has_char " " kw = false ->
  PyStr.contains kw (PyStr.join "; " l) = true <->
  exists a, a ∈ l /\ PyStr.contains kw a = true.
Proof.
  intros Hne Hsemi Hspace. induction l as [|a [|b rest] IH].
  - split; [by intros ?%contains_nil|]. intros (a & Ha & _). by apply elem_of_nil in Ha.
  - change (PyStr.join "; " [a]) with a. split.
    + intros H. exists a. split; [left|done].
    + intros (a' & ->%list_elem_of_singleton & H). done.
  - rewrite join_cons2. split.
    + change ("; " +:+ PyStr.join "; " (b :: rest))
        with (String ";" (String " " (PyStr.join "; " (b :: rest)))).
      intros [Ha|Hrest]%(contains_around_char _ _ _ _ Hsemi).
      * exists a. split; [left|done].
      * apply (contains_around_char kw "" " " _ Hspace) in Hrest as [Hnil|Hrest];
          [by apply contains_nil in Hnil|].
        apply IH in Hrest as (a' & Hin & Ha'). exists a'. split; [by right|done].
    + intros (a' & [->|Hin]%elem_of_cons & Ha').
      * apply (contains_extend kw "" _ ("; " +:+ PyStr.join "; " (b :: rest))) in Ha'.
        exact Ha'.
      * assert (PyStr.contains kw (PyStr.join "; " (b :: rest)) = true) as Hj.
        { apply IH. by exists a'. }
        apply (contains_extend kw (a +:+ "; ") _ "") in Hj.
        rewrite string_app_assoc in Hj.
        replace (PyStr.join "; " (b :: rest) +:+ "") with (PyStr.join "; " (b :: rest)) in Hj;
          [done|].
        generalize (PyStr.join "; " (b :: rest)). intros s.
        induction s as [|c s IHs]; [done|]. rewrite app_cons. by rewrite <- IHs.
Qed.

Lemma keywords_plain kw :
  kw ∈ keywords -> kw <> "" /\ has_char ";" kw = false /\ has_char " " kw = false.
Proof.
  unfold keywords. rewrite !elem_of_cons, elem_of_nil.
  intros [->|[->|[->|[->|[->|[->|[->|[->|[]]]]]]]]]; by repeat split.
Qed.

Lemma classify_joined affiliations :
  is_non_academic_affiliation affiliations
  = mentions_keyword (PyStr.join "; " affiliations).
Proof.
  apply eq_true_iff_eq.
  rewrite classify_true. unfold mentions_keyword. rewrite existsb_exists. split.
  - intros (aff & Hin & (kw & Hkw & Hsub)%existsb_exists).
    exists kw. split; [done|]. apply list_elem_of_In in Hkw.
    destruct (keywords_plain kw Hkw) as (Hne & Hsemi & Hspace).
    rewrite lower_join. apply contains_join; try done.
    exists (PyStr.lower aff). split; [|done]. by apply list_elem_of_fmap_2.
  - intros (kw & Hkw & Hsub). pose proof Hkw as Hkw'. apply list_elem_of_In in Hkw'.
    destruct (keywords_plain kw Hkw') as (Hne & Hsemi & Hspace).
    rewrite lower_join in Hsub. apply contains_join in Hsub as (a & Hin & Ha); try done.
    apply list_elem_of_fmap in Hin as (aff & -> & Hin).
    exists aff. split; [done|]. apply existsb_exists. by exists kw.
Qed.

(** X10. The classifier gives the list of affiliations the answer the
    keyword test gives the joined "Affiliations" column: no keyword has a
    semicolon or a space, so no match spans the "; " separator. *)
Theorem classify_agrees_with_joined_column :
  forall affiliations : list string,
    is_non_academic_affiliation affiliations
    = mentions_keyword (PyStr.join "; " affiliations).
Proof.
  intros affiliations. rewrite classify_joined. reflexivity.
Qed.

(** ** The rows of the script *)

Lemma main_rows line w rows w' :
  main line w = (Ret rows, w') ->
  exists paper_data ev0,
    Forall (row_from paper_data (log w ev0) w') rows.
Proof.
  intros Hmain.
  apply main_returns in Hmain
    as (paper_ids & paper_data & ids & w1 & w2 & w3 & Hsearch & Hsummary & Hids & Hloop & ->).
  destruct (fetch_papers_retries (PyStr.strip line) 3 5 (started line w))
    as (ev1 & o1 & Hrun1 & _).
  rewrite Hsearch in Hrun1. injection Hrun1 as <- ->.
  destruct (get_paper_details_retries paper_ids 3 5 (log (started line w) ev1))
    as (ev2 & o2 & Hrun2 & _).
  rewrite Hsummary in Hrun2. injection Hrun2 as <- ->.
  unfold started in *. rewrite !log_log in *.
  match type of Hloop with for_each_paper _ _ _ (log _ ?ev) = _ =>
    exists paper_data, ev;
    destruct (for_each_paper_spec paper_data ids [] (log w ev))
      as (events & o & Hrun & _ & _ & _ & Hrows)
  end.
  rewrite Hloop in Hrun. injection Hrun as <- ->.
  destruct (Hrows rows eq_refl) as (new & Hnew & _ & Hfrom). simpl in Hnew. subst new.
  eapply Forall_impl; [exact Hfrom|]. intros r.
  destruct rows.
  - by apply (row_from_after _ _ _ _ [Print NoNonAcademicPapers]).
  - apply (row_from_after _ _ _ _ [WriteFile "filtered_papers.csv"; Print SavedToCsv]).
    unfold saved. simpl. by rewrite <- app_assoc.
Qed.

(** X11. In every row the script ends with, the "Affiliations" column,
    lowercased, contains one of the keywords. *)
Theorem exported_affiliations_mention_a_keyword :
  forall (line : string) (w : world) (rows : list row) (w' : world),
    main line w = (Ret rows, w') ->
    Forall (fun r => mentions_keyword (Affiliations r) = true) rows.
Proof.
  intros line w rows w' Hmain.
  apply main_rows in Hmain as (paper_data & ev0 & Hrows).
  eapply Forall_impl; [exact Hrows|]. intros r Hr.
  destruct Hr as (entry & authors & affiliations & before & during & after & Hr).
  destruct Hr as (_ & _ & _ & _ & _ & _ & Hclass & _ & ->).
  by rewrite <- classify_joined.
Qed.

Lemma exported_affiliations_mention_a_keyword_witness :
  Forall (fun r => mentions_keyword (Affiliations r) = true) [one_paper_row].
Proof.
  apply (exported_affiliations_mention_a_keyword "cancer AND Pfizer" one_paper
           [one_paper_row] (main "cancer AND Pfizer" one_paper).2).
  vm_compute. reflexivity.
Defined.

Lemma get_author_affiliations_all_fail paper_id w :
  (forall history, xml_failure (network w history (Efetch paper_id)) = true) ->
  exists events,
    get_author_affiliations paper_id 3 5 w = (Ret (Some ([], [])), log w events).
Proof.
  intros Hfail.
  assert (forall history,
            network w history (Efetch paper_id) = TransportError \/
            network w history (Efetch paper_id) = HttpError) as Hcases.
  { intros history. specialize (Hfail history).
    destruct (network w history (Efetch paper_id)); auto. discriminate Hfail. }
  unfold get_author_affiliations. cbn [seq for_attempts].
  unfold try_except, requests_get, on_request_exception. run_M.
  repeat match goal with
         | |- context [network w ?h (Efetch paper_id)] =>
             destruct (Hcases h) as [-> | ->]; simpl
         end;
    rewrite !log_log; by eexists.
Qed.

(** X12. A paper whose authors cannot be fetched is left out and does not
    stop the script: when every efetch request fails, the rows the script
    ends with are none. *)
Theorem failed_fetches_export_nothing :
  forall (line : string) (w : world) (rows : list row) (w' : world),
    (forall history paper_id,
       xml_failure (network w history (Efetch paper_id)) = true) ->
    main line w = (Ret rows, w') ->
    rows = [].
Proof.
  intros line w rows w' Hfail Hmain.
  apply main_rows in Hmain as (paper_data & ev0 & Hrows).
  destruct rows as [|r rows]; [done|]. exfalso.
  apply Forall_cons in Hrows as [Hr _].
  destruct Hr as (entry & authors & affiliations & before & during & after & Hr).
  destruct Hr as (_ & _ & _ & _ & Hrun & _ & Hclass & _).
  destruct (get_author_affiliations_all_fail (Paper_ID r) (log (log w ev0) before))
    as (events & Hempty); [intros history; apply Hfail|].
  rewrite Hempty in Hrun. by injection Hrun as <- <-.
Qed.

Lemma failed_fetches_export_nothing_witness :
  (main "cancer"
     (answering (search_reply ["1"]) (summary_reply [("1", JObj [])]) HttpError)).1
  = Ret [].
Proof.
  assert (exists rows w',
            main "cancer"
              (answering (search_reply ["1"]) (summary_reply [("1", JObj [])]) HttpError)
            = (Ret rows, w')) as (rows & w' & Hmain).
  { eexists _, _. vm_compute. reflexivity. }
  rewrite Hmain. simpl. f_equal.
  eapply failed_fetches_export_nothing; [|exact Hmain]. intros history paper_id. reflexivity.
Defined.

(** ** The requests of the script *)

Lemma total_sleep_app e1 e2 : total_sleep (e1 ++ e2) = total_sleep e1 + total_sleep e2.
Proof.
  induction e1 as [|[] e1 IH]; simpl; try done. rewrite IH. lia.
Qed.

(** One round of the loop over the papers makes at most one call of the
    efetch stage. *)
Lemma process_paper_cost paper_data filtered paper_id w :
  exists events o,
    process_paper paper_data filtered paper_id w = (o, log w events) /\
    length (answers_of events) <= 3 /\ total_sleep events <= 10.
Proof.
  assert (forall o : outcome (list row),
            exists events o', (o, w) = (o', log w events) /\
              length (answers_of events) <= 3 /\ total_sleep events <= 10) as Hquiet.
  { intros o. exists [], o. rewrite log_nil. simpl. repeat split; try done; lia. }
  unfold process_paper. rewrite bind_run.
  destruct (Py.contains paper_id paper_data) as [e|[|]]; simpl; [apply Hquiet| |apply Hquiet].
  rewrite bind_run.
  destruct (Py.getitem paper_data paper_id) as [e|entry]; simpl; [apply Hquiet|].
  rewrite bind_run.
  destruct (Py.get entry "title" _) as [e|title]; simpl; [apply Hquiet|].
  rewrite bind_run. simpl. rewrite bind_run.
  destruct (Py.get entry "pubdate" _) as [e|pub_date]; simpl; [apply Hquiet|].
  rewrite bind_run.
  destruct (get_author_affiliations_retries paper_id 3 5 w)
    as (events & o & -> & Hretries & _).
  apply retries_pauses in Hretries as (Hlen & _ & Hsleep).
  exists events.
  destruct o as [[[authors affiliations]|]|e|]; run_M; [|by eexists..].
  destruct (is_non_academic_affiliation affiliations); by eexists.
Qed.

Lemma for_each_paper_cost paper_data ids : forall filtered w,
  exists events o,
    for_each_paper paper_data ids filtered w = (o, log w events) /\
    length (answers_of events) <= 3 * length ids /\
    total_sleep events <= 10 * length ids.
Proof.
  induction ids as [|paper_id rest IH]; intros filtered w.
  - exists [], (Ret filtered). rewrite log_nil. simpl. repeat split; try done; lia.
  - cbn [for_each_paper]. rewrite bind_run.
    destruct (process_paper_cost paper_data filtered paper_id w)
      as (ev1 & o1 & -> & Hn1 & Hs1).
    destruct o1 as [rows1|e|].
    + destruct (IH rows1 (log w ev1)) as (ev2 & o & -> & Hn2 & Hs2).
      exists (ev1 ++ ev2), o. rewrite log_log, answers_of_app, length_app, total_sleep_app.
      simpl. repeat split; try done; lia.
    + exists ev1, (Raise e). simpl. repeat split; try done; lia.
    + exists ev1, Exited. simpl. repeat split; try done; lia.
Qed.

Lemma fetch_papers_requests query n delay w :
  exists events o,
    fetch_papers query (S n) delay w = (o, log w events) /\ answers_of events <> [].
Proof.
  destruct (attempts_stop (fun attempt => FetchingPapers query (attempt + 1))
              ErrorFetchingPapers FailedPapers (Esearch query 5) (JArr [])
              (S n) delay decode_search undecodable decode_search_spec
              (S n) 0 w) as (events & o & Hrun & Hne & _); [done|].
  exists events, (outcome_map (default JNull) o). split; [|apply Hne; lia].
  rewrite fetch_papers_unfold. by apply bind_ret_run.
Qed.

Ltac trace_eq :=
  cbn [fst snd]; rewrite ?log_log, ?trace_log, ?app_nil_r; simpl;
  rewrite <- ?app_assoc; done.

(** The script in four parts: search, summary, papers, ending. *)
Lemma main_parts line w :
  exists e1 e2 e3 e4 id,
    trace (main line w).2 = trace w ++ e1 ++ e2 ++ e3 ++ e4 /\
    (Forall (on_wire (eq (Esearch (PyStr.strip line) 5))) e1 /\
     answers_of e1 <> [] /\
     length (answers_of e1) <= 3 /\ total_sleep e1 <= 10) /\
    (Forall (on_wire (eq (Esummary id))) e2 /\
     length (answers_of e2) <= 3 /\ total_sleep e2 <= 10) /\
    (Forall (on_wire (fun r => exists paper_id, r = Efetch paper_id)) e3 /\
     length (answers_of e3) <= 3 * found line w /\
     total_sleep e3 <= 10 * found line w) /\
    (answers_of e4 = [] /\ total_sleep e4 = 0).
Proof.
  rewrite main_unfold. unfold found.
  destruct (fetch_papers_requests (PyStr.strip line) 2 5 (started line w))
    as (ev1' & o1' & Hrun' & Hne1).
  destruct (fetch_papers_retries (PyStr.strip line) 3 5 (started line w))
    as (ev1 & o1 & Hrun & H1).
  rewrite Hrun in Hrun'. injection Hrun' as <- <-%app_inv_head. rewrite Hrun.
  clear Hrun.
  pose proof (retries_on_wire (eq (Esearch (PyStr.strip line) 5)) _ _ _ _ _ _ _ eq_refl H1)
    as Hw1.
  apply retries_pauses in H1 as (Hn1 & _ & Hs1).
  unfold started. rewrite log_log.
  remember ([Print ScriptStarted; Print (QueryReceived (PyStr.strip line))] ++ ev1)
    as e1 eqn:He1.
  assert (Forall (on_wire (eq (Esearch (PyStr.strip line) 5))) e1 /\
          answers_of e1 <> [] /\
          length (answers_of e1) <= 3 /\ total_sleep e1 <= 10) as Hpart1.
  { subst e1. split; [|done]. apply Forall_app. split; [by repeat constructor|done]. }
  clear He1 Hw1 Hn1 Hs1 Hne1.
  assert (forall n t (e2 e3 e4 : list event) id,
            t = trace w ++ (e1 ++ e2) ++ e3 ++ e4 ->
            (Forall (on_wire (eq (Esummary id))) e2 /\
             length (answers_of e2) <= 3 /\ total_sleep e2 <= 10) ->
            (Forall (on_wire (fun r => exists paper_id, r = Efetch paper_id)) e3 /\
             length (answers_of e3) <= 3 * n /\ total_sleep e3 <= 10 * n) ->
            answers_of e4 = [] -> total_sleep e4 = 0 ->
            exists e1' e2' e3' e4' id',
              t = trace w ++ e1' ++ e2' ++ e3' ++ e4' /\
              (Forall (on_wire (eq (Esearch (PyStr.strip line) 5))) e1' /\
               answers_of e1' <> [] /\
               length (answers_of e1') <= 3 /\ total_sleep e1' <= 10) /\
              (Forall (on_wire (eq (Esummary id'))) e2' /\
               length (answers_of e2') <= 3 /\ total_sleep e2' <= 10) /\
              (Forall (on_wire (fun r => exists paper_id, r = Efetch paper_id)) e3' /\
               length (answers_of e3') <= 3 * n /\ total_sleep e3' <= 10 * n) /\
              (answers_of e4' = [] /\ total_sleep e4' = 0)) as Hstop.
  { intros n t e2 e3 e4 id -> H2 H3 Ha Hs. exists e1, e2, e3, e4, id.
    rewrite <- !app_assoc. split; [done|]. split; [exact Hpart1|].
    split; [exact H2|]. split; [exact H3|]. done. }
  assert (forall n, Forall (on_wire (fun r => exists paper_id, r = Efetch paper_id)) [] /\
                    length (answers_of []) <= 3 * n /\ total_sleep [] <= 10 * n) as Hnone3.
  { intros n. simpl. repeat split; [done|lia..]. }
  assert (forall id, Forall (on_wire (eq (Esummary id))) [] /\
                     length (answers_of []) <= 3 /\ total_sleep [] <= 10) as Hnone2.
  { intros id. simpl. repeat split; [done|lia..]. }
  destruct o1 as [paper_ids|e|]; cbn [fst snd].
  2,3: apply (Hstop _ _ [] [] [] ""); [trace_eq|apply Hnone2|apply Hnone3|done|done].
  destruct (Py.truthy paper_ids).
  2:{ apply (Hstop _ _ [] [] [Print NoPapersFound] "");
        [trace_eq|apply Hnone2|apply Hnone3|done|done]. }
  destruct (get_paper_details_retries paper_ids 3 5 (log w e1)) as (ev2 & o2 & -> & H2).
  pose proof (retries_on_wire (eq (Esummary _)) _ _ _ _ _ _ _ eq_refl H2) as Hw2.
  apply retries_pauses in H2 as (Hn2 & _ & Hs2).
  rewrite log_log.
  destruct o2 as [paper_data|e|]; cbn [fst snd].
  2,3: eapply (Hstop _ _ ev2 [] []); [trace_eq|done|apply Hnone3|done|done].
  destruct (Py.truthy paper_data).
  2:{ eapply (Hstop _ _ ev2 [] [Print NoDetailsFetched]);
        [trace_eq|done|apply Hnone3|done|done]. }
  destruct (Py.str_items paper_ids) as [ids|] eqn:Hids.
  2:{ eapply (Hstop _ _ ev2 [] []); [trace_eq|done|apply Hnone3|done|done]. }
  destruct (for_each_paper_spec paper_data ids [] (log w (e1 ++ ev2)))
    as (ev3 & o3 & Hrun3 & Hw3 & _).
  destruct (for_each_paper_cost paper_data ids [] (log w (e1 ++ ev2)))
    as (ev3' & o3' & Hrun3' & Hn3 & Hs3).
  rewrite Hrun3 in Hrun3'. injection Hrun3' as <- <-%app_inv_head.
  rewrite Hrun3.
  assert (Forall (on_wire (fun r => exists paper_id, r = Efetch paper_id)) ev3) as Hw3'.
  { eapply Forall_impl; [exact Hw3|]. intros [r a| | |]; simpl; try done.
    intros (paper_id & -> & _). by eexists. }
  cbn [default from_option id].
  destruct o3 as [[|r rows]|e|].
  - eapply (Hstop _ _ ev2 ev3 [Print NoNonAcademicPapers]); [trace_eq|done..].
  - eapply (Hstop _ _ ev2 ev3 [WriteFile "filtered_papers.csv"; Print SavedToCsv]);
      [|done..].
    cbn [snd]. unfold saved. rewrite trace_log. cbn [trace].
    by rewrite !trace_log, <- !app_assoc.
  - eapply (Hstop _ _ ev2 ev3 []); [trace_eq|done..].
  - eapply (Hstop _ _ ev2 ev3 []); [trace_eq|done..].
Qed.

(** X13. The script sends its requests stage after stage: those of the
    search, all for the stripped query with retmax 5; then those of the
    summary, all for one and the same joined identifier string; then those of
    efetch; nothing of one stage comes after something of a later one, and
    what follows the loop sends no request. *)
Theorem stages_run_in_order :
  forall (line : string) (w : world),
    exists e1 e2 e3 e4 id,
      trace (main line w).2 = trace w ++ e1 ++ e2 ++ e3 ++ e4 /\
      Forall (on_wire (eq (Esearch (PyStr.strip line) 5))) e1 /\
      Forall (on_wire (eq (Esummary id))) e2 /\
      Forall (on_wire (fun r => exists paper_id, r = Efetch paper_id)) e3 /\
      answers_of e4 = [].
Proof.
  intros line w.
  destruct (main_parts line w)
    as (e1 & e2 & e3 & e4 & id & Ht & (H1 & _) & (H2 & _) & (H3 & _) & (H4 & _)).
  by exists e1, e2, e3, e4, id.
Qed.

(** X14. With [n] identifiers returned by the search, the script sends at
    most [6 + 3 * n] requests and sleeps at most [10 * (2 + n)] seconds. *)
Theorem requests_and_pauses_are_bounded :
  forall (line : string) (w : world),
    exists events,
      trace (main line w).2 = trace w ++ events /\
      length (answers_of events) <= 6 + 3 * found line w /\
      total_sleep events <= 10 * (2 + found line w).
Proof.
  intros line w.
  destruct (main_parts line w) as (e1 & e2 & e3 & e4 & id & Ht & H1 & H2 & H3 & H4).
  destruct H1 as (_ & _ & Hn1 & Hs1), H2 as (_ & Hn2 & Hs2),
           H3 as (_ & Hn3 & Hs3), H4 as (Hn4 & Hs4).
  exists (e1 ++ e2 ++ e3 ++ e4). split; [done|].
  rewrite !answers_of_app, !length_app, !total_sleep_app, Hn4, Hs4. simpl. lia.
Qed.

(** ** Names without surrounding blanks *)

Lemma lstrip_first s c :
  first_char (PyStr.lstrip s) = Some c -> PyStr.is_space c = false.
Proof.
  induction s as [|d s IH]; simpl; [done|].
  destruct (PyStr.is_space d) eqn:Hd; [done|]. simpl. by intros [= <-].
Qed.

Lemma rstrip_first s c :
  first_char (PyStr.rstrip s) = Some c -> first_char s = Some c.
Proof.
  destruct s as [|d s]; simpl; [done|].
  destruct (PyStr.rstrip s); [|done]. by destruct (PyStr.is_space d).
Qed.

Lemma rstrip_last s c :
  last_char (PyStr.rstrip s) = Some c -> PyStr.is_space c = false.
Proof.
  induction s as [|d s IH]; simpl; [done|].
  destruct (PyStr.rstrip s) as [|e t] eqn:Hr.
  - destruct (PyStr.is_space d) eqn:Hd; [done|]. simpl. by intros [= <-].
  - intros H. apply IH. exact H.
Qed.

Lemma strip_ends s c :
  first_char (PyStr.strip s) = Some c \/ last_char (PyStr.strip s) = Some c ->
  PyStr.is_space c = false.
Proof.
  unfold PyStr.strip. intros [H|H].
  - by apply rstrip_first, lstrip_first in H.
  - by apply rstrip_last in H.
Qed.

(** X15. The display name of an author neither begins nor ends with a
    blank: with only one name part present no space is left hanging. *)
Theorem author_name_has_no_surrounding_blank :
  forall (author : Soup.tag) (c : ascii),
    first_char (author_name author) = Some c \/ last_char (author_name author) = Some c ->
    PyStr.is_space c = false.
Proof.
  intros author c H. unfold author_name in H. by apply strip_ends in H.
Qed.

Lemma author_name_has_no_surrounding_blank_witness :
  author_name {| Soup.here := Elem "Author" [Elem "LastName" [Text "Smith "]];
                 Soup.next_elements := [] |} = "Smith" /\
  PyStr.is_space "S" = false.
Proof.
  split; [reflexivity|].
  apply (author_name_has_no_surrounding_blank
           {| Soup.here := Elem "Author" [Elem "LastName" [Text "Smith "]];
              Soup.next_elements := [] |}).
  left. reflexivity.
Defined.

(** ** An accepted first reply *)

Ltac first_round :=
  unfold try_except, requests_get, response_json, first_answer in *; run_M.

Lemma search_without_result query n delay w b fields :
  first_answer w (FetchingPapers query 1) (Esearch query 5) = Success b ->
  json_of b = Some (JObj fields) ->
  Py.lookup "esearchresult" fields = None ->
  fetch_papers query (S n) delay w
  = (Ret (JArr []),
     log w [Print (FetchingPapers query 1); Get (Esearch query 5) (Success b);
            Print NoPapersFound]).
Proof.
  intros Hfirst Hjson Hnone. unfold fetch_papers. cbn [seq for_attempts]. first_round.
  rewrite Hfirst. simpl. rewrite Hjson. simpl. rewrite Hnone. simpl.
  by rewrite !log_log.
Qed.

Lemma search_without_idlist query n delay w b fields res :
  first_answer w (FetchingPapers query 1) (Esearch query 5) = Success b ->
  json_of b = Some (JObj fields) ->
  Py.lookup "esearchresult" fields = Some (JObj res) ->
  Py.lookup "idlist" res = None ->
  fetch_papers query (S n) delay w
  = (Ret (JArr []),
     log w [Print (FetchingPapers query 1); Get (Esearch query 5) (Success b);
            Print NoPapersFound]).
Proof.
  intros Hfirst Hjson Hres Hnone. unfold fetch_papers. cbn [seq for_attempts]. first_round.
  rewrite Hfirst. simpl. rewrite Hjson. simpl. rewrite Hres. simpl. rewrite Hnone. simpl.
  by rewrite !log_log.
Qed.

Lemma summary_without_result paper_ids items n delay w b fields :
  Py.str_items paper_ids = Some items ->
  first_answer w (FetchingDetails (length items) 1) (Esummary (PyStr.join "," items))
    = Success b ->
  json_of b = Some (JObj fields) ->
  Py.lookup "result" fields = None ->
  get_paper_details paper_ids (S n) delay w
  = (Ret (JObj []),
     log w [Print (FetchingDetails (length items) 1);
            Get (Esummary (PyStr.join "," items)) (Success b)]).
Proof.
  intros Hitems Hfirst Hjson Hnone.
  rewrite (get_paper_details_unfold _ _ _ _ _ Hitems).
  cbn [seq for_attempts]. unfold round, decode_summary. first_round.
  rewrite Hfirst. simpl. rewrite Hjson. simpl. rewrite Hnone. simpl.
  by rewrite !log_log.
Qed.

(** X16. A reply that lacks a key is a reply: when the first answer to the
    search is an object without "esearchresult", or with an "esearchresult"
    without "idlist", the stage returns the empty list after that one
    request; when the first answer to the summary is an object without
    "result", the stage returns the empty mapping after that one request. *)
Theorem missing_keys_give_empty_results :
  forall (n delay : nat) (w : world) (b : body) (fields : list (string * json)),
    json_of b = Some (JObj fields) ->
    (forall query,
       first_answer w (FetchingPapers query 1) (Esearch query 5) = Success b ->
       Py.lookup "esearchresult" fields = None \/
       (exists res, Py.lookup "esearchresult" fields = Some (JObj res) /\
                    Py.lookup "idlist" res = None) ->
       fetch_papers query (S n) delay w
       = (Ret (JArr []),
          log w [Print (FetchingPapers query 1); Get (Esearch query 5) (Success b);
                 Print NoPapersFound])) /\
    (forall paper_ids items,
       Py.str_items paper_ids = Some items ->
       first_answer w (FetchingDetails (length items) 1) (Esummary (PyStr.join "," items))
         = Success b ->
       Py.lookup "result" fields = None ->
       get_paper_details paper_ids (S n) delay w
       = (Ret (JObj []),
          log w [Print (FetchingDetails (length items) 1);
                 Get (Esummary (PyStr.join "," items)) (Success b)])).
Proof.
  intros n delay w b fields Hjson. split.
  - intros query Hfirst [Hnone|(res & Hres & Hnone)].
    + by eapply search_without_result.
    + by eapply search_without_idlist.
  - intros paper_ids items Hitems Hfirst Hnone. by eapply summary_without_result.
Qed.

Lemma missing_keys_give_empty_results_witness :
  fetch_papers "cancer" 3 5 (serving (json_body (JObj [("header", JObj [])])))
  = (Ret (JArr []),
     log (serving (json_body (JObj [("header", JObj [])])))
       [Print (FetchingPapers "cancer" 1);
        Get (Esearch "cancer" 5) (Success (json_body (JObj [("header", JObj [])])));
        Print NoPapersFound]) /\
  get_paper_details (JArr [JStr "1"; JStr "2"]) 3 5
    (serving (json_body (JObj [("header", JObj [])])))
  = (Ret (JObj []),
     log (serving (json_body (JObj [("header", JObj [])])))
       [Print (FetchingDetails 2 1);
        Get (Esummary "1,2") (Success (json_body (JObj [("header", JObj [])])))]).
Proof.
  destruct (missing_keys_give_empty_results 2 5
              (serving (json_body (JObj [("header", JObj [])])))
              (json_body (JObj [("header", JObj [])])) [("header", JObj [])] eq_refl)
    as [Hsearch Hsummary].
  split.
  - apply Hsearch; [reflexivity|]. by left.
  - by apply (Hsummary (JArr [JStr "1"; JStr "2"]) ["1"; "2"]).
Defined.

(** X17. An accepted first answer to efetch is final: the stage returns what
    the loop of lines 83-92 extracts from that document after that one
    request, whatever the document holds. *)
Theorem accepted_document_is_final :
  forall (paper_id : string) (n delay : nat) (w : world) (b : body),
    first_answer w (FetchingAuthors paper_id 1) (Efetch paper_id) = Success b ->
    get_author_affiliations paper_id (S n) delay w
    = (Ret (Some (map author_name (Soup.find_all "Author" (xml_of b)),
                  omap affiliation_of (Soup.find_all "Author" (xml_of b)))),
       log w [Print (FetchingAuthors paper_id 1); Get (Efetch paper_id) (Success b)]).
Proof.
  intros paper_id n delay w b Hfirst.
  unfold get_author_affiliations. cbn [seq for_attempts]. first_round.
  rewrite Hfirst. simpl. rewrite !log_log.
  unfold extract_authors. by rewrite fold_extract_author.
Qed.

Lemma accepted_document_is_final_witness :
  (get_author_affiliations "1" 3 5 (serving (xml_body two_authors))).1
  = Ret (Some (["John Smith"; ""], ["Pfizer Inc., USA"])).
Proof.
  rewrite (accepted_document_is_final "1" 2 5 (serving (xml_body two_authors))
             (xml_body two_authors) eq_refl).
  reflexivity.
Defined.

(** ** What the script always and never does *)

Lemma requests_of_app e1 e2 : requests_of (e1 ++ e2) = requests_of e1 ++ requests_of e2.
Proof. apply flat_map_app. Qed.

Lemma requests_of_all_to r events :
  Forall (on_wire (eq r)) events -> answers_of events <> [] ->
  head (requests_of events) = Some r.
Proof.
  induction 1 as [|[r' a| | |] events He _ IH]; simpl; try done.
  simpl in He. intros _. by rewrite He.
Qed.

(** X18. No line is refused: whatever is typed, blank or not, the script
    sends at least one request, and the first is the search for the line
    stripped of surrounding blanks, with retmax 5. *)
Theorem first_request_searches_the_stripped_line :
  forall (line : string) (w : world),
    exists events,
      trace (main line w).2 = trace w ++ events /\
      head (requests_of events) = Some (Esearch (PyStr.strip line) 5).
Proof.
  intros line w.
  destruct (main_parts line w) as (e1 & e2 & e3 & e4 & id & Ht & H1 & _).
  destruct H1 as (Hw1 & Hne1 & _).
  exists (e1 ++ e2 ++ e3 ++ e4). split; [done|].
  rewrite requests_of_app.
  pose proof (requests_of_all_to _ _ Hw1 Hne1) as Hhead.
  destruct (requests_of e1); [done|exact Hhead].
Qed.

(** X19. The script touches no file but [filtered_papers.csv]: whatever way
    it ends, every other path holds what it held. *)
Theorem no_other_file_is_touched :
  forall (line : string) (w : world) (path : string),
    path <> "filtered_papers.csv" ->
    files (main line w).2 !! path = files w !! path.
Proof.
  intros line w path Hpath.
  destruct (main_events line w) as (events & _ & Hcase).
  destruct (main line w).1 as [[|r rows]|e|].
  - destruct Hcase as [-> _]. done.
  - destruct Hcase as [-> _]. by rewrite lookup_insert_ne.
  - destruct Hcase as [-> _]. done.
  - destruct Hcase as [-> _]. done.
Qed.

Lemma no_other_file_is_touched_witness :
  files (main "cancer AND Pfizer" one_paper).2 !! "notes.txt" = None.
Proof.
  rewrite (no_other_file_is_touched "cancer AND Pfizer" one_paper "notes.txt");
    [reflexivity|discriminate].
Defined.
